(** * jh_warm.py: the stream-overlapped data prefetcher and the staged
      training driver, as a shallow embedding.

    The development follows the layout of [src/jh_warm.py]:
    - [Py]: the few pieces of Python the script relies on (exceptions,
      [next] on an iterator, [type(x) is int], [>] on objects);
    - [Torch]: tensors, transforms, datasets and loaders, as far as the
      script looks into them;
    - [Prefetch]: [DataPrefetcher] ([__init__], [__len__], [preload],
      [__iter__] as a generator that the consumer resumes);
    - [Logging]: [ImagenetLoggingCallback] and the text file it writes;
    - [Driver]: [save_args], [fit], [update_model_dir], [torch_loader]
      and [main], as a computation that records what it does.

    The definitions come first, the properties after them. *)

From Stdlib Require Import ZArith QArith String Ascii List Lia Bool.
From stdpp Require Import base option list gmap strings pretty.
Import ListNotations.

Local Open Scope Z_scope.

(** ** Python base *)

Module Py.

Inductive exn : Type :=
| StopIteration
| AttributeError (attr : string)
| TypeError
| ValueError
| ZeroDivisionError
| AssertionError (msg : string)
| FileNotFoundError
| IsADirectoryError.

Inductive result (A : Type) : Type :=
| Ok (a : A)
| Raise (e : exn).
Arguments Ok {A} a.
Arguments Raise {A} e.

(** The values an object attribute such as [stop_after] may hold. *)
Inductive pyval : Type :=
| PyNone
| PyInt (n : Z)
| PyBool (b : bool)
| PyFloat (q : Q)
| PyStr (s : string).

(** [type(v) is int]: exact type identity, so [True]/[False] (of type
    [bool]) and floats are not ints. *)
Definition type_is_int (v : pyval) : bool :=
  match v with
  | PyInt _ => true
  | _ => false
  end.

(** [count > v] for an int [count]; ordering an int against [None] or a
    [str] raises [TypeError]. *)
Definition int_gt (count : Z) (v : pyval) : result bool :=
  match v with
  | PyInt k => Ok (count >? k)
  | PyBool b => Ok (count >? Z.b2z b)
  | PyFloat q => Ok (negb (Qle_bool (inject_Z count) q))
  | PyNone => Raise TypeError
  | PyStr _ => Raise TypeError
  end.

(** [next(it)] on a list iterator: the head and the advanced iterator, or
    [StopIteration]. *)
Definition next {B : Type} (it : list B) : result (B * list B) :=
  match it with
  | [] => Raise StopIteration
  | b :: rest => Ok (b, rest)
  end.

End Py.
Import Py.

(** ** The parts of torch and torchvision the script touches *)

Module Torch.

Inductive Device : Type := Host | Cuda.

(** [torchvision.transforms]; float arguments are kept as the decimal
    literals of the source. [ResizeIntOf size f] is
    [Resize(int(size * f))], the float product left unevaluated. *)
Inductive Transform : Type :=
| RandomResizedCrop (size : Z) (scale_lo scale_hi : Q)
| RandomHorizontalFlip
| ToTensor
| Normalize (mean std : list Q)
| ResizeIntOf (size : Z) (factor : Q)
| CenterCrop (size : Z).

(** [datasets.ImageFolder(root, transforms.Compose(tfms))] *)
Record ImageFolder : Type := mkImageFolder {
  if_root : string;
  if_tfms : list Transform
}.

(** [torch.utils.data.distributed.DistributedSampler(dataset)] *)
Inductive Sampler : Type := DistributedSampler (d : ImageFolder).

Section WithPayload.

(** Tensor contents are opaque to the script. *)
Context {A : Type}.

Record Tensor : Type := mkTensor { payload : A; device : Device }.

(** [t.cuda(async=True)]: same contents, resident on the accelerator. *)
Definition cuda (t : Tensor) : Tensor :=
  {| payload := payload t; device := Cuda |}.

(** What a loader produces: an (input, target) pair. *)
Definition Batch : Type := (Tensor * Tensor)%type.

(** A [torch.utils.data.DataLoader]: the constructor's arguments and
    the batches a pass over it produces, in the order the sampler of that
    pass gives them. *)
Record DataLoader : Type := mkLoader {
  ld_dataset : ImageFolder;
  ld_batch_size : Z;
  ld_shuffle : bool;
  ld_num_workers : Z;
  ld_pin_memory : bool;
  ld_sampler : option Sampler;
  ld_batches : list Batch
}.

(** [len(loader)] *)
Definition loader_len (l : DataLoader) : Z := Z.of_nat (length (ld_batches l)).

(** [iter(loader)]: a fresh iterator positioned at the first batch. *)
Definition loader_iter (l : DataLoader) : list Batch := ld_batches l.

End WithPayload.

Arguments Tensor : clear implicits.
Arguments Batch : clear implicits.
Arguments DataLoader : clear implicits.

End Torch.
Import Torch.

(** ** DataPrefetcher *)

Module Prefetch.

Section WithPayload.

Context {A : Type}.

#[local] Abbreviation Tensor := (Tensor A).
#[local] Abbreviation Batch := (Batch A).
#[local] Abbreviation DataLoader := (DataLoader A).

(** What the generator hands out: the captured [self.next_input] and
    [self.next_target]; the latter is an attribute that may hold
    [None]. *)
Definition Item : Type := (Tensor * option Tensor)%type.

(** A source batch as the consumer receives it. *)
Definition to_item (b : Batch) : Item := (cuda (fst b), Some (cuda (snd b))).

Record DataPrefetcher : Type := mkPrefetcher {
  loader : DataLoader;
  dataset : ImageFolder;
  stream : nat;
  stop_after : pyval;
  next_input : option Tensor;
  next_target : option Tensor;
  (** [None] while the attribute has not been assigned yet *)
  loaditer : option (list Batch)
}.

Definition set_next (p : DataPrefetcher) (i t : option Tensor) : DataPrefetcher :=
  {| loader := loader p; dataset := dataset p; stream := stream p;
     stop_after := stop_after p; next_input := i; next_target := t;
     loaditer := loaditer p |}.

Definition set_loaditer (p : DataPrefetcher) (it : list Batch) : DataPrefetcher :=
  {| loader := loader p; dataset := dataset p; stream := stream p;
     stop_after := stop_after p; next_input := next_input p;
     next_target := next_target p; loaditer := Some it |}.

(** [DataPrefetcher(loader, stop_after)]; [s] is the stream that
    [torch.cuda.Stream()] returns. *)
Definition __init__ (l : DataLoader) (s : nat) (sa : pyval) : DataPrefetcher :=
  {| loader := l; dataset := ld_dataset l; stream := s; stop_after := sa;
     next_input := None; next_target := None; loaditer := None |}.

(** [len(self.loader)] *)
Definition __len__ (p : DataPrefetcher) : Z := loader_len (loader p).

(** Stream operations and hand-overs, in program order. One [CopyIssue]
    stands for one [with torch.cuda.stream(self.stream)] block, which
    queues the copies of the input and of the target of one batch. *)
Inductive event : Type :=
| CopyIssue (s : nat) (input target : Tensor)
| WaitStream (s : nat)
| Yield (input : Tensor) (target : option Tensor).

(** [preload]: pull the next pair from [self.loaditer]; on
    [StopIteration] clear both attributes and return; otherwise queue the
    two copies on [self.stream]. Reading [self.loaditer] before
    [__iter__] has assigned it raises [AttributeError]. *)
Definition preload (p : DataPrefetcher) : result (DataPrefetcher * list event) :=
  match loaditer p with
  | None => Raise (AttributeError "loaditer"%string)
  | Some it =>
      match next it with
      | Raise StopIteration => Ok (set_next p None None, [])
      | Raise e => Raise e
      | Ok ((input, target), it') =>
          let p1 := set_next (set_loaditer p it') (Some input) (Some target) in
          Ok (set_next p1 (Some (cuda input)) (Some (cuda target)),
              [CopyIssue (stream p) (cuda input) (cuda target)])
      end
  end.

(** The generator object made by [__iter__]: not started, suspended at
    the [yield] with its local [count], or finished. *)
Inductive GenState : Type :=
| GNew
| GSuspended (count : Z)
| GDone.

(** What one [next(gen)] gives the consumer. *)
Inductive Outcome : Type :=
| Yielded (it : Item)
| Stopped
| Raised (e : exn).

Definition Step : Type := (DataPrefetcher * GenState * Outcome * list event)%type.

(** The [while] loop from its test to the [yield]. *)
Definition loop_head (p : DataPrefetcher) (count : Z) (sofar : list event) : Step :=
  match next_input p with
  | None => (p, GDone, Stopped, sofar)
  | Some input =>
      let target := next_target p in
      match preload p with
      | Raise e => (p, GDone, Raised e, sofar ++ [WaitStream (stream p)])
      | Ok (p', evs) =>
          (p', GSuspended (count + 1), Yielded (input, target),
           sofar ++ [WaitStream (stream p)] ++ evs ++ [Yield input target])
      end
  end.

(** [type(self.stop_after) is int and (count > self.stop_after)];
    [and] does not evaluate the comparison when the type test fails. *)
Definition cap_check (p : DataPrefetcher) (count : Z) : result bool :=
  if type_is_int (stop_after p) then int_gt count (stop_after p) else Ok false.

(** One [next(gen)]: a new generator runs [__iter__] from its first line
    to the first [yield]; a suspended one resumes after the [yield], at
    the cap test; a finished one stays finished. *)
Definition gen_next (p : DataPrefetcher) (g : GenState) : Step :=
  match g with
  | GNew =>
      let p0 := set_loaditer p (loader_iter (loader p)) in
      match preload p0 with
      | Raise e => (p0, GDone, Raised e, [])
      | Ok (p1, evs) => loop_head p1 0 evs
      end
  | GSuspended count =>
      match cap_check p count with
      | Raise e => (p, GDone, Raised e, [])
      | Ok true => (p, GDone, Stopped, [])
      | Ok false => loop_head p count []
      end
  | GDone => (p, GDone, Stopped, [])
  end.

(** How a consumer's loop over the generator ends. *)
Inductive Finish : Type :=
| Returned               (* the generator returned: StopIteration *)
| Failed (e : exn)       (* an exception came out of the generator *)
| Abandoned.             (* the consumer stopped pulling *)

Record Run : Type := mkRun {
  run_obj : DataPrefetcher;
  run_gen : GenState;
  run_items : list Item;
  run_trace : list event;
  run_finish : Finish
}.

(** The consumer's reaction to one [next(gen)]: keep the item and go on
    ([continue]), or leave the loop. *)
Definition finish_pull (continue : DataPrefetcher -> GenState -> Run) (st : Step) : Run :=
  let '(p', g', out, evs) := st in
  match out with
  | Yielded it =>
      let r := continue p' g' in
      mkRun (run_obj r) (run_gen r) (it :: run_items r)
            (evs ++ run_trace r) (run_finish r)
  | Stopped => mkRun p' g' [] evs Returned
  | Raised e => mkRun p' g' [] evs (Failed e)
  end.

(** A consumer that resumes generator [g] at most [pulls] times, as a
    [for] loop does until [StopIteration]. *)
Fixpoint consume (pulls : nat) (p : DataPrefetcher) (g : GenState) : Run :=
  match pulls with
  | O => mkRun p g [] [] Abandoned
  | S k => finish_pull (consume k) (gen_next p g)
  end.

(** [for item in prefetcher]: a new generator from [__iter__], then
    [consume]. *)
Definition iterate (pulls : nat) (p : DataPrefetcher) : Run := consume pulls p GNew.

(** *** Vocabulary for the properties *)

(** Contents of a handed-out item and of a source batch, whatever the
    device. *)
Definition item_payload (it : Item) : A * option A :=
  (payload it.1, payload <$> it.2).

Definition batch_payload (b : Batch) : A * option A :=
  (payload b.1, Some (payload b.2)).

(** The hand-overs recorded in a trace. *)
Definition yield_of (e : event) : option Item :=
  match e with Yield i t => Some (i, t) | _ => None end.

Definition yields_of (tr : list event) : list Item := omap yield_of tr.

(** A [for] loop over a fresh prefetcher that is willing to pull until the
    generator returns: one pull per source batch, one more to see the end,
    and [extra] to spare. *)
Definition full_pulls (l : DataLoader) (extra : nat) : nat :=
  (S (length (ld_batches l)) + extra)%nat.

Definition is_issue (e : event) : bool :=
  match e with CopyIssue _ _ _ => true | _ => false end.

Definition is_wait (e : event) : bool :=
  match e with WaitStream _ => true | _ => false end.

Definition is_yield (e : event) : bool :=
  match e with Yield _ _ => true | _ => false end.

Fixpoint count_if (f : event -> bool) (tr : list event) : nat :=
  match tr with
  | [] => O
  | e :: tr' => if f e then S (count_if f tr') else count_if f tr'
  end.

(** Copies issued so far minus waits performed so far is 0 or 1. *)
Definition in_flight_ok (tr : list event) : Prop :=
  count_if is_issue tr = count_if is_wait tr \/
  count_if is_issue tr = S (count_if is_wait tr).

(** ... at every instant of the trace. *)
Definition always_in_flight_ok (tr : list event) : Prop :=
  forall pre, pre `prefix_of` tr -> in_flight_ok pre.

(** Every hand-over of a batch comes after the copy of that very batch was
    issued on stream [s] and then waited on: between the issue and the
    wait there are only hand-overs (of earlier batches), after the wait
    only copy issues (of later ones). *)
Definition yields_waited (s : nat) (tr : list event) : Prop :=
  forall pre input target post,
    tr = pre ++ Yield input target :: post ->
    exists t p1 p2 p3,
      target = Some t /\
      pre = p1 ++ CopyIssue s input t :: p2 ++ WaitStream s :: p3 /\
      forallb is_yield p2 = true /\ forallb is_issue p3 = true.

(** The generator sits between two batches: the source iterator is bound,
    and either batch ([i], [t]) is preloaded with [rest] still to pull, or
    nothing is. *)
Definition primed (p : DataPrefetcher) (i t : Tensor) (rest : list Batch) : Prop :=
  loaditer p = Some rest /\ next_input p = Some i /\ next_target p = Some t.

Definition drained (p : DataPrefetcher) : Prop :=
  loaditer p = Some [] /\ next_input p = None /\ next_target p = None.

(** The trace [hist] of an iteration agrees with the object between two
    steps of its generator: it is a legal trace, and a batch is preloaded
    exactly when its copy is the one still in flight. *)
Definition coherent (s : nat) (hist : list event) (p : DataPrefetcher) : Prop :=
  stream p = s /\ is_Some (loaditer p) /\
  always_in_flight_ok hist /\ yields_waited s hist /\
  match next_input p with
  | Some i =>
      exists t p1 p2,
        next_target p = Some t /\
        hist = p1 ++ CopyIssue s i t :: p2 /\
        forallb is_yield p2 = true /\
        count_if is_issue hist = S (count_if is_wait hist)
  | None => count_if is_issue hist = count_if is_wait hist
  end.

(** The fields that [__init__] fixes. *)
Definition same_config (p q : DataPrefetcher) : Prop :=
  loader q = loader p /\ dataset q = dataset p /\ stream q = stream p /\
  stop_after q = stop_after p.

(** *** Vocabulary for further properties *)

(** How many batches an iteration over [n] source batches hands out at
    most under [stop_after]: an int cap [k] lets [k + 1] through, and at
    least one, since the cap is tested only after a hand-over. *)
Definition cap_limit (sa : pyval) (n : nat) : nat :=
  match sa with
  | PyInt k => Nat.min n (Z.to_nat (Z.max 1 (k + 1)))
  | _ => n
  end.

(** With the count at [c], how many of [n] further batches the cap still
    lets through. *)
Definition cap_room (sa : pyval) (c : Z) (n : nat) : nat :=
  match sa with
  | PyInt k => Nat.min n (Z.to_nat (k - c))
  | _ => n
  end.

(** A source batch once both its tensors are on the device. *)
Definition to_device (b : Batch) : Batch := (cuda b.1, cuda b.2).

Definition issue_of (e : event) : option Batch :=
  match e with CopyIssue _ i t => Some (i, t) | _ => None end.

(** The batches whose copies a trace issues, in order. *)
Definition issued_of (tr : list event) : list Batch := omap issue_of tr.

(** The stream operations of handing out the preloaded batch ([i], [t])
    and [more] of the batches of [rest] after it. *)
Fixpoint handover_trace (s : nat) (i t : Tensor) (rest : list Batch) (more : nat)
  : list event :=
  WaitStream s ::
  match rest with
  | [] => [Yield i (Some t)]
  | b :: rest' =>
      CopyIssue s (cuda b.1) (cuda b.2) :: Yield i (Some t) ::
      match more with
      | O => []
      | S more' => handover_trace s (cuda b.1) (cuda b.2) rest' more'
      end
  end.

(** The parts of what one [next(gen)] leaves behind. *)
Definition step_obj (st : Step) : DataPrefetcher := st.1.1.1.
Definition step_gen (st : Step) : GenState := st.1.1.2.
Definition step_out (st : Step) : Outcome := st.1.2.

(** An item as the consumer must get it: both tensors on the device. *)
Definition on_device (it : Item) : Prop :=
  device it.1 = Cuda /\ exists t, it.2 = Some t /\ device t = Cuda.

End WithPayload.

Arguments Item : clear implicits.
Arguments DataPrefetcher : clear implicits.
Arguments event : clear implicits.
Arguments Outcome : clear implicits.
Arguments Run : clear implicits.
Arguments Step : clear implicits.

(** Labelled synthetic batches 0 .. n-1, for concrete runs. *)
Definition demo_folder : ImageFolder :=
  {| if_root := "demo/train"%string; if_tfms := [ToTensor] |}.

Definition demo_batch (n : nat) : Batch nat :=
  ({| payload := n; device := Host |}, {| payload := (100 + n)%nat; device := Host |}).

Definition demo_loader (n : nat) : DataLoader nat :=
  {| ld_dataset := demo_folder; ld_batch_size := 256; ld_shuffle := false;
     ld_num_workers := 4; ld_pin_memory := true; ld_sampler := None;
     ld_batches := map demo_batch (seq 0 n) |}.

End Prefetch.
Import Prefetch.

(** ** ImagenetLoggingCallback *)

Module Logging.

Definition tab : string := String "009"%char EmptyString.
Definition nl : string := String "010"%char EmptyString.

(** Does the text contain a line end ("\n" or "\r")? *)
Fixpoint has_line_end (s : string) : bool :=
  match s with
  | EmptyString => false
  | String c s' =>
      if Ascii.eqb c "010"%char || Ascii.eqb c "013"%char then true
      else has_line_end s'
  end.

(** The text file object behind [self.f]: how it was opened, and the text
    written but not yet flushed to the file. *)
Record File : Type := mkFile {
  f_path : string;
  f_mode : string;
  f_buffering : Z;
  f_pending : string;
  f_closed : bool
}.

(** The file system: the text of every file by its path, and the
    directories there are. Paths are compared as written; permissions and
    resource limits are outside the model. *)
Record FileSystem : Type := mkFileSystem {
  fs_files : gmap string string;
  fs_dirs : gset string
}.

Definition contents (fs : FileSystem) (path : string) : string :=
  match fs_files fs !! path with
  | Some text => text
  | None => EmptyString
  end.

Definition write_text (fs : FileSystem) (path text : string) : FileSystem :=
  {| fs_files := <[path := text]> (fs_files fs); fs_dirs := fs_dirs fs |}.

(** A path split at its last "/": the directory part ([None] for a bare
    name, which lies in the working directory; the empty string for the
    root) and the last component. *)
Fixpoint split_path (path : string) : option string * string :=
  match path with
  | EmptyString => (None, EmptyString)
  | String c rest =>
      match split_path rest with
      | (Some d, base) => (Some (String c d), base)
      | (None, base) =>
          if Ascii.eqb c "/" then (Some EmptyString, base)
          else (None, String c base)
      end
  end.

Definition dir_exists (fs : FileSystem) (dir : option string) : bool :=
  match dir with
  | None => true
  | Some d => String.eqb d EmptyString || bool_decide (d ∈ fs_dirs fs)
  end.

(** Does the path name a directory rather than a file? *)
Definition names_dir (fs : FileSystem) (path : string) : bool :=
  bool_decide (path ∈ fs_dirs fs)
  || String.eqb (split_path path).2 EmptyString
  || String.eqb (split_path path).2 "."
  || String.eqb (split_path path).2 "..".

(** What the operating system answers when a file is opened for writing
    at [path]: the directory of the file has to be there (the file itself
    need not), and the path must not name a directory. *)
Definition can_open (fs : FileSystem) (path : string) : result unit :=
  if String.eqb path EmptyString then Raise FileNotFoundError
  else if negb (dir_exists fs (split_path path).1) then Raise FileNotFoundError
  else if names_dir fs path then Raise IsADirectoryError
  else Ok tt.

(** [open(path, mode, buffering)] for the text modes ["a"] (keep what is
    there, write at the end) and ["w"] (start empty); the mode is checked
    before the file system is touched. *)
Definition py_open (fs : FileSystem) (path mode : string) (buffering : Z)
  : result (File * FileSystem) :=
  let file := {| f_path := path; f_mode := mode; f_buffering := buffering;
                 f_pending := EmptyString; f_closed := false |} in
  if String.eqb mode "a" then
    match can_open fs path with
    | Ok _ => Ok (file, write_text fs path (contents fs path))
    | Raise e => Raise e
    end
  else if String.eqb mode "w" then
    match can_open fs path with
    | Ok _ => Ok (file, write_text fs path EmptyString)
    | Raise e => Raise e
    end
  else Raise ValueError.

Definition flush (f : File) (fs : FileSystem) : File * FileSystem :=
  ({| f_path := f_path f; f_mode := f_mode f; f_buffering := f_buffering f;
      f_pending := EmptyString; f_closed := f_closed f |},
   write_text fs (f_path f) (contents fs (f_path f) +:+ f_pending f)).

(** [f.write(s)]: with [buffering=1] the file is line buffered, the text
    goes to the file as soon as a write contains a line end; otherwise it
    stays buffered (here: until [close]). *)
Definition file_write (f : File) (fs : FileSystem) (s : string)
  : result (File * FileSystem) :=
  if f_closed f then Raise ValueError
  else
    let f' := {| f_path := f_path f; f_mode := f_mode f;
                 f_buffering := f_buffering f;
                 f_pending := f_pending f +:+ s; f_closed := false |} in
    if (f_buffering f =? 1) && has_line_end s then Ok (flush f' fs)
    else Ok (f', fs).

(** [f.close()] *)
Definition file_close (f : File) (fs : FileSystem) : File * FileSystem :=
  let '(f', fs') := flush f fs in
  ({| f_path := f_path f'; f_mode := f_mode f'; f_buffering := f_buffering f';
      f_pending := EmptyString; f_closed := true |}, fs').

Section WithMetric.

(** Metric values come from the framework; [fmt] is how an f-string
    renders one. *)
Context {M : Type} (fmt : M -> string).

Record ImagenetLoggingCallback : Type := mkCallback {
  save_path : string;
  print_every : Z;
  (** attributes assigned by the hooks; [None] while unassigned *)
  batch : option Z;
  epoch : option Z;
  last_loss : option M;
  f : option File
}.

(** [ImagenetLoggingCallback(save_path, print_every=50)] *)
Definition __init__ (path : string) (every : Z) : ImagenetLoggingCallback :=
  {| save_path := path; print_every := every; batch := None; epoch := None;
     last_loss := None; f := None |}.

Definition default_print_every : Z := 50.

Definition set_f (cb : ImagenetLoggingCallback) (file : File) : ImagenetLoggingCallback :=
  {| save_path := save_path cb; print_every := print_every cb;
     batch := batch cb; epoch := epoch cb; last_loss := last_loss cb;
     f := Some file |}.

Definition set_counters (cb : ImagenetLoggingCallback) (b e : option Z)
  : ImagenetLoggingCallback :=
  {| save_path := save_path cb; print_every := print_every cb;
     batch := b; epoch := e; last_loss := last_loss cb; f := f cb |}.

Definition set_last_loss (cb : ImagenetLoggingCallback) (m : M)
  : ImagenetLoggingCallback :=
  {| save_path := save_path cb; print_every := print_every cb;
     batch := batch cb; epoch := epoch cb; last_loss := Some m; f := f cb |}.

(** The callback together with the files it writes. *)
Definition World : Type := (ImagenetLoggingCallback * FileSystem)%type.

(** One log record: [now + "\t" + string + "\n"]. *)
Definition log_record (now text : string) : string :=
  now +:+ tab +:+ text +:+ nl.

(** [self.log(string)]; [now] is what
    [time.strftime("%Y-%m-%dT%H:%M:%S")] returns at that moment. *)
Definition log (now text : string) (w : World) : result World :=
  match f w.1 with
  | None => Raise (AttributeError "f")
  | Some file =>
      match file_write file w.2 (log_record now text) with
      | Ok (file', fs') => Ok (set_f w.1 file', fs')
      | Raise e => Raise e
      end
  end.

Definition on_train_begin (now : string) (w : World) : result World :=
  let cb := set_counters w.1 (Some 0) (Some 0) in
  match py_open w.2 (save_path cb) "a" 1 with
  | Ok (file, fs') => log now (tab +:+ "on_train_begin") (set_f cb file, fs')
  | Raise e => Raise e
  end.

(** The [for (k,v) in zip([...], metrics)] loop of [on_epoch_end]. *)
Fixpoint zip_fields (names : list string) (metrics : list M) : string :=
  match names, metrics with
  | k :: names', v :: metrics' =>
      tab +:+ k +:+ ":" +:+ fmt v +:+ zip_fields names' metrics'
  | _, _ => EmptyString
  end.

Definition on_epoch_end (now : string) (metrics : list M) (w : World) : result World :=
  match epoch w.1 with
  | None => Raise (AttributeError "epoch")
  | Some e =>
      match last_loss w.1 with
      | None => Raise (AttributeError "last_loss")
      | Some loss =>
          let log_str :=
            tab +:+ "Epoch:" +:+ pretty e +:+ tab +:+ "trn_loss:" +:+ fmt loss
            +:+ zip_fields ["val_loss"; "acc"; "top5"; EmptyString] metrics in
          match log now log_str w with
          | Ok (cb, fs) => Ok (set_counters cb (batch cb) (Some (e + 1)), fs)
          | Raise ex => Raise ex
          end
      end
  end.

Definition on_batch_end (now : string) (metrics : M) (w : World) : result World :=
  let cb := set_last_loss w.1 metrics in
  match batch cb with
  | None => Raise (AttributeError "batch")
  | Some b =>
      let cb := set_counters cb (Some (b + 1)) (epoch cb) in
      if print_every cb =? 0 then Raise ZeroDivisionError
      else if (b + 1) mod print_every cb =? 0 then
        match epoch cb with
        | None => Raise (AttributeError "epoch")
        | Some e =>
            log now ("Epoch: " +:+ pretty e +:+ " Batch: " +:+ pretty (b + 1)
                     +:+ " Metrics: " +:+ fmt metrics) (cb, w.2)
        end
      else Ok (cb, w.2)
  end.

Definition on_train_end (now : string) (w : World) : result World :=
  match log now (tab +:+ "on_train_end") w with
  | Ok (cb, fs) =>
      match f cb with
      | None => Raise (AttributeError "f")
      | Some file => let '(file', fs') := file_close file fs in Ok (set_f cb file', fs')
      end
  | Raise e => Raise e
  end.

(** The framework drives the callback through its hooks. *)
Inductive hook : Type :=
| OnTrainBegin
| OnBatchEnd (metrics : M)
| OnEpochEnd (metrics : list M)
| OnTrainEnd.

Definition fire (h : hook) (now : string) (w : World) : result World :=
  match h with
  | OnTrainBegin => on_train_begin now w
  | OnBatchEnd m => on_batch_end now m w
  | OnEpochEnd ms => on_epoch_end now ms w
  | OnTrainEnd => on_train_end now w
  end.

(** A sequence of hooks, each with the clock reading at its call. *)
Fixpoint fire_all (hs : list (hook * string)) (w : World) : result World :=
  match hs with
  | [] => Ok w
  | (h, now) :: hs' =>
      match fire h now w with
      | Ok w' => fire_all hs' w'
      | Raise e => Raise e
      end
  end.

(** *** Vocabulary for the properties *)

(** The text of a list of (timestamp, message) records. *)
Fixpoint records_text (entries : list (string * string)) : string :=
  match entries with
  | [] => EmptyString
  | (now, text) :: rest => log_record now text +:+ records_text rest
  end.

(** The lines of a text, each ended by "\n"; [cur] is the line being
    read, and an unfinished last line counts as a line. *)
Fixpoint lines_from (cur : string) (s : string) : list string :=
  match s with
  | EmptyString => if String.eqb cur EmptyString then [] else [cur]
  | String c s' =>
      if Ascii.eqb c "010"%char then cur :: lines_from EmptyString s'
      else lines_from (cur +:+ String c EmptyString) s'
  end.

Definition lines (s : string) : list string := lines_from EmptyString s.

(** The line of a record: the timestamp first, as the key. *)
Definition keyed_line (entry : string * string) : string :=
  entry.1 +:+ tab +:+ entry.2.

Definition one_line (entry : string * string) : Prop :=
  has_line_end entry.1 = false /\ has_line_end entry.2 = false.

(** The sink between two hooks: the log file holds what it held before
    training ([old]) followed by the records written, and the file object
    is the append-mode, line-buffered one with nothing left unflushed. *)
Definition sink_ok (path old : string) (entries : list (string * string))
    (w : World) : Prop :=
  save_path w.1 = path /\
  fs_files w.2 !! path = Some (old +:+ records_text entries) /\
  exists file,
    f w.1 = Some file /\ f_path file = path /\ f_mode file = "a" /\
    f_buffering file = 1 /\ f_pending file = EmptyString.

(** Does a non-empty text end with "\n"? *)
Fixpoint ends_nl (s : string) : bool :=
  match s with
  | EmptyString => false
  | String c s' =>
      match s' with
      | EmptyString => Ascii.eqb c "010"%char
      | String _ _ => ends_nl s'
      end
  end.

(** A text made of whole lines: empty, or ended by "\n". *)
Definition whole_lines (s : string) : bool :=
  String.eqb s EmptyString || ends_nl s.

(** What the hooks have counted so far: batches, epochs, and the loss of
    the last batch. *)
Record Counters : Type := mkCounters {
  n_batch : Z;
  n_epoch : Z;
  n_loss : option M
}.

Definition counters_of (cb : ImagenetLoggingCallback) : option Counters :=
  match batch cb, epoch cb with
  | Some b, Some e => Some {| n_batch := b; n_epoch := e; n_loss := last_loss cb |}
  | _, _ => None
  end.

Definition epoch_message (e : Z) (loss : M) (metrics : list M) : string :=
  tab +:+ "Epoch:" +:+ pretty e +:+ tab +:+ "trn_loss:" +:+ fmt loss
  +:+ zip_fields ["val_loss"; "acc"; "top5"; EmptyString] metrics.

Definition batch_message (e b : Z) (metrics : M) : string :=
  "Epoch: " +:+ pretty e +:+ " Batch: " +:+ pretty b
  +:+ " Metrics: " +:+ fmt metrics.

(** The records the log is to gain from one hook fired at clock reading
    [now]: one for the begin and one for the end of training, one per
    epoch end, and one for every batch end whose count is a multiple of
    [every]. (An epoch end before any batch end has no loss to report; the
    hook raises there.) *)
Definition hook_records (every : Z) (c : Counters) (h : hook) (now : string)
  : list (string * string) :=
  match h with
  | OnTrainBegin => [(now, tab +:+ "on_train_begin")]
  | OnBatchEnd m =>
      if (n_batch c + 1) mod every =? 0
      then [(now, batch_message (n_epoch c) (n_batch c + 1) m)]
      else []
  | OnEpochEnd ms =>
      match n_loss c with
      | Some loss => [(now, epoch_message (n_epoch c) loss ms)]
      | None => []
      end
  | OnTrainEnd => [(now, tab +:+ "on_train_end")]
  end.

(** The counters after the hook. *)
Definition hook_next (c : Counters) (h : hook) : Counters :=
  match h with
  | OnTrainBegin => {| n_batch := 0; n_epoch := 0; n_loss := n_loss c |}
  | OnBatchEnd m =>
      {| n_batch := n_batch c + 1; n_epoch := n_epoch c; n_loss := Some m |}
  | OnEpochEnd _ =>
      {| n_batch := n_batch c; n_epoch := n_epoch c + 1; n_loss := n_loss c |}
  | OnTrainEnd => c
  end.

(** The records the log is to gain from a sequence of hooks. *)
Fixpoint written (every : Z) (c : Counters) (hs : list (hook * string))
  : list (string * string) :=
  match hs with
  | [] => []
  | (h, now) :: hs' =>
      hook_records every c h now ++ written every (hook_next c h) hs'
  end.

(** A callback that has not counted anything yet. *)
Definition no_counts : Counters :=
  {| n_batch := 0; n_epoch := 0; n_loss := None |}.

(** *** Vocabulary for further properties *)

Definition is_batch_end (h : hook) : bool :=
  match h with OnBatchEnd _ => true | _ => false end.

Definition is_epoch_end (h : hook) : bool :=
  match h with OnEpochEnd _ => true | _ => false end.

(** How many of the hooks pass [test]. *)
Fixpoint count_hooks (test : hook -> bool) (hs : list (hook * string)) : Z :=
  match hs with
  | [] => 0
  | (h, _) :: hs' => (if test h then 1 else 0) + count_hooks test hs'
  end.

(** The hooks of a training run between [on_train_begin] and
    [on_train_end], as the framework fires them: batch ends and epoch
    ends, a batch end first. *)
Definition orderly (hs : list (hook * string)) : bool :=
  match hs with
  | [] => true
  | (h, _) :: hs' =>
      is_batch_end h
      && forallb (fun x => is_batch_end x.1 || is_epoch_end x.1) hs'
  end.

(** A training run as the framework drives the callback: the begin, the
    hooks [hs] in between, the end. *)
Definition session (t0 : string) (hs : list (hook * string)) (t1 : string)
  : list (hook * string) :=
  (OnTrainBegin, t0) :: hs ++ [(OnTrainEnd, t1)].

(** The callback in the middle of a run: log file open, counters at [b]
    and [e], [every] batches between two batch records. *)
Definition in_run (every b e : Z) (w : World) : Prop :=
  print_every w.1 = every /\ batch w.1 = Some b /\ epoch w.1 = Some e /\
  exists file, f w.1 = Some file /\ f_closed file = false.

End WithMetric.

Arguments ImagenetLoggingCallback : clear implicits.
Arguments World : clear implicits.
Arguments hook : clear implicits.
Arguments Counters : clear implicits.
Arguments no_counts {M}.

(** A file system with an empty [logs] directory. *)
Definition demo_fs : FileSystem :=
  {| fs_files := ∅; fs_dirs := {["logs"%string]} |}.

End Logging.

(** ** The training driver *)

Module Driver.

(** The parsed command line, with the two attributes [main] adds
    ([None] while unassigned). [--save-dir] is a [str]; its default, a
    path under the home directory, is never empty. *)
Record Args : Type := mkArgs {
  data : string;
  save_dir : string;
  arch : string;
  workers : Z;
  batch_size : Z;
  fp16 : bool;
  dist_url : string;
  dist_backend : string;
  world_size : Z;
  rank : Z;
  distributed : option bool;
  gpu : option Z
}.

Definition set_distributed (a : Args) (d : bool) : Args :=
  {| data := data a; save_dir := save_dir a; arch := arch a;
     workers := workers a; batch_size := batch_size a; fp16 := fp16 a;
     dist_url := dist_url a; dist_backend := dist_backend a;
     world_size := world_size a; rank := rank a;
     distributed := Some d; gpu := gpu a |}.

Definition set_gpu (a : Args) (g : Z) : Args :=
  {| data := data a; save_dir := save_dir a; arch := arch a;
     workers := workers a; batch_size := batch_size a; fp16 := fp16 a;
     dist_url := dist_url a; dist_backend := dist_backend a;
     world_size := world_size a; rank := rank a;
     distributed := distributed a; gpu := Some g |}.

(** [not s] for a string. *)
Definition str_is_empty (s : string) : bool := String.eqb s EmptyString.

(** [os.path.join(a, b)] for a relative [b]. *)
Definition path_join (a b : string) : string :=
  if str_is_empty a then b
  else if String.eqb (substring (String.length a - 1) 1 a) "/" then a +:+ b
  else a +:+ "/" +:+ b.

Section WithPayload.

Context {A M : Type}.

(** What the script finds around it: the cudnn switch, the number of
    devices, and the batches a loader built with given arguments yields. *)
Record Env : Type := mkEnv {
  cudnn_enabled : bool;
  device_count : Z;
  read_batches : ImageFolder -> Z -> bool -> option Sampler -> list (Batch A)
}.

(** [TorchModelData(path, trn_dl, val_dl, aug_dl)] *)
Record TorchModelData : Type := mkData {
  md_path : string;
  trn_dl : DataPrefetcher A;
  val_dl : DataPrefetcher A;
  aug_dl : option (DataPrefetcher A)
}.

(** Values of the keyword arguments that [save_args] returns. *)
Inductive SargVal : Type :=
| SaStr (s : string)
| SaCallbacks (cbs : list (Logging.ImagenetLoggingCallback M)).

(** The arguments of one [learner.fit(...)]. *)
Record FitCall : Type := mkFitCall {
  fc_lr : Q;
  fc_n_cycle : Z;
  fc_cycle_len : Z;
  fc_sampler : option Sampler;
  fc_wds : Q;
  fc_use_clr : pyval;
  fc_loss_scale : Z;
  fc_sargs : gmap string SargVal
}.

(** What the script does to the world outside it, in program order. *)
Inductive action : Type :=
| SetDevice (g : Z)
| InitProcessGroup (backend init_method : string) (ws : Z)
| BuildModel (name : string)
| WrapDDP
| CallTorchLoader (data_path : string) (size bs : Z)
| FromModelData (d : TorchModelData)
| SetCrit
| SetMetrics
| Half
| MakeDirs (path : string)
| SetTmpPath (path : string)
| SetModelsPath (path : string)
| SetData (d : TorchModelData)
| PyPrint (text : string)
| LearnerFit (call : FitCall).

(** The script as a computation: it threads the number of CUDA streams
    made so far, records its actions, and may raise. *)
Definition Script (X : Type) : Type := nat -> list action * result (X * nat).

Definition ret {X : Type} (x : X) : Script X := fun n => ([], Ok (x, n)).

Definition bind {X Y : Type} (m : Script X) (k : X -> Script Y) : Script Y :=
  fun n =>
    match m n with
    | (tr, Ok (x, n')) => let '(tr', r) := k x n' in (tr ++ tr', r)
    | (tr, Raise e) => (tr, Raise e)
    end.

Definition emit (a : action) : Script unit := fun n => ([a], Ok (tt, n)).

Definition raise {X : Type} (e : exn) : Script X := fun n => ([], Raise e).

(** [torch.cuda.Stream()] *)
Definition new_stream : Script nat := fun n => ([], Ok (n, S n)).

(** [if c: body] *)
Definition when (c : bool) (body : Script unit) : Script unit :=
  if c then body else ret tt.

(** [assert c, msg], with assertions enabled as the interpreter has them
    by default. *)
Definition py_assert (c : bool) (msg : string) : Script unit :=
  if c then ret tt else raise (AssertionError msg).

(** Reading an attribute that may be unassigned. *)
Definition attr {X : Type} (name : string) (v : option X) : Script X :=
  match v with
  | Some x => ret x
  | None => raise (AttributeError name)
  end.

End WithPayload.

Arguments Env : clear implicits.
Arguments TorchModelData : clear implicits.
Arguments SargVal : clear implicits.
Arguments FitCall : clear implicits.
Arguments action : clear implicits.
Arguments Script : clear implicits.

Notation "x <- c ;; k" := (bind c (fun x => k))
  (at level 100, c at next level, right associativity).
Notation "c ;;; k" := (bind c (fun _ => k))
  (at level 100, right associativity).

Section Program.

Context {A M : Type}.

#[local] Abbreviation Env := (Env A).
#[local] Abbreviation Script := (Script A M).
#[local] Abbreviation TorchModelData := (TorchModelData A).

Definition normalize : Transform :=
  Normalize [485 # 1000; 456 # 1000; 406 # 1000]%Q
            [229 # 1000; 224 # 1000; 225 # 1000]%Q.

Definition train_tfms (size : Z) (min_scale : Q) : list Transform :=
  [RandomResizedCrop size min_scale 1%Q; RandomHorizontalFlip; ToTensor; normalize].

Definition val_tfms (size : Z) : list Transform :=
  [ResizeIntOf size (114 # 100)%Q; CenterCrop size; ToTensor; normalize].

Definition default_min_scale : Q := (8 # 100)%Q.

(** [torch.utils.data.DataLoader(dataset, batch_size=.., shuffle=..,
    num_workers=.., pin_memory=.., sampler=..)] *)
Definition make_loader (env : Env) (d : ImageFolder) (bs : Z) (shuffle : bool)
    (nw : Z) (sampler : option Sampler) : DataLoader A :=
  {| ld_dataset := d; ld_batch_size := bs; ld_shuffle := shuffle;
     ld_num_workers := nw; ld_pin_memory := true; ld_sampler := sampler;
     ld_batches := read_batches env d bs shuffle sampler |}.

(** [DataPrefetcher(loader)] *)
Definition make_prefetcher (l : DataLoader A) : Script (DataPrefetcher A) :=
  s <- new_stream ;; ret (Prefetch.__init__ l s PyNone).

Definition torch_loader (args : Args) (env : Env)
    (data_path : string) (size bs : Z) (min_scale : Q)
  : Script (TorchModelData * option Sampler) :=
  emit (CallTorchLoader data_path size bs) ;;;
  let traindir := path_join data_path "train" in
  let valdir := path_join data_path "val" in
  let train_dataset := mkImageFolder traindir (train_tfms size min_scale) in
  dist <- attr "distributed" (distributed args) ;;
  let train_sampler := if dist then Some (DistributedSampler train_dataset) else None in
  let train_loader :=
    make_loader env train_dataset bs
      (match train_sampler with None => true | Some _ => false end)
      (workers args) train_sampler in
  let val_loader :=
    make_loader env (mkImageFolder valdir (val_tfms size)) (bs * 2) false
      (workers args) None in
  let aug_loader :=
    make_loader env (mkImageFolder valdir (train_tfms size min_scale)) bs false
      (workers args) None in
  train_loader <- make_prefetcher train_loader ;;
  val_loader <- make_prefetcher val_loader ;;
  aug_loader <- make_prefetcher aug_loader ;;
  ret (mkData data_path train_loader val_loader (Some aug_loader), train_sampler).

(** The sink is active on rank 0 with a save directory configured:
    the negation of [(args.rank != 0) or not args.save_dir]. *)
Definition sink_active (args : Args) : bool :=
  negb (negb (rank args =? 0) || str_is_empty (save_dir args)).

(** The dictionary [save_args] returns when the sink is active. *)
Definition sink_kwargs (name log_dir : string) : gmap string (SargVal M) :=
  <["best_save_name" := SaStr (name +:+ "_best_model")]>
    (<["cycle_save_name" := SaStr name]>
       (<["callbacks" :=
            SaCallbacks
              [Logging.__init__ (log_dir +:+ "/" +:+ name +:+ "_log.txt")
                 Logging.default_print_every]]> ∅)).

Definition save_args (args : Args) (name dir : string)
  : Script (gmap string (SargVal M)) :=
  if negb (rank args =? 0) || str_is_empty (save_dir args) then ret ∅
  else
    let log_dir := dir +:+ "/training_logs" in
    emit (MakeDirs log_dir) ;;;
    ret (sink_kwargs name log_dir).

Definition update_model_dir (base_dir : string) : Script unit :=
  emit (SetTmpPath (base_dir +:+ "/tmp")) ;;;
  emit (MakeDirs (base_dir +:+ "/tmp")) ;;;
  emit (SetModelsPath (base_dir +:+ "/models")) ;;;
  emit (MakeDirs (base_dir +:+ "/models")).

Definition fit (args : Args) (name : string) (lr : Q) (cycle_len : Z)
    (sampler : option Sampler) (wds : Q) (clr : pyval) : Script unit :=
  emit (PyPrint (Logging.nl +:+ "-- " +:+ name +:+ " --" +:+ Logging.nl)) ;;;
  sargs <- save_args args name (save_dir args) ;;
  emit (LearnerFit
          {| fc_lr := lr; fc_n_cycle := 1; fc_cycle_len := cycle_len;
             fc_sampler := sampler; fc_wds := wds; fc_use_clr := clr;
             fc_loss_scale := 1024; fc_sargs := sargs |}).

Definition main (args : Args) (env : Env) : Script unit :=
  let args := set_distributed args (world_size args >? 1) in
  let args := set_gpu args 0 in
  dist <- attr "distributed" (distributed args) ;;
  args <-
    (if dist : bool then
       if device_count env =? 0 then raise ZeroDivisionError
       else
         let args := set_gpu args (rank args mod device_count env) in
         g <- attr "gpu" (gpu args) ;;
         emit (SetDevice g) ;;;
         emit (InitProcessGroup (dist_backend args) (dist_url args)
                 (world_size args)) ;;;
         ret args
     else ret args) ;;
  when (fp16 args)
    (py_assert (cudnn_enabled env)
       "fp16 mode requires cudnn backend to be enabled.") ;;;
  emit (BuildModel (arch args)) ;;;
  dist <- attr "distributed" (distributed args) ;;
  when dist (emit WrapDDP) ;;;
  stage <- torch_loader args env (data args +:+ "-sz/160") 128 256
             default_min_scale ;;
  emit (FromModelData stage.1) ;;;
  emit SetCrit ;;;
  emit SetMetrics ;;;
  when (fp16 args) (emit Half) ;;;
  let wd := (2 # 100000)%Q in
  update_model_dir (save_dir args) ;;;
  fit args "1" (3 # 100)%Q 1 stage.2 wd PyNone ;;;
  stage <- torch_loader args env (data args +:+ "-sz/320") 128 256
             default_min_scale ;;
  emit (SetData stage.1) ;;;
  fit args "3" (1 # 10)%Q 1 stage.2 wd PyNone ;;;
  stage <- torch_loader args env (data args) 128 256 default_min_scale ;;
  emit (SetData stage.1) ;;;
  fit args "3" (1 # 10)%Q 1 stage.2 wd PyNone ;;;
  emit (PyPrint "Finished!").

(** *** Vocabulary for the properties *)

(** What one prefetcher of a stage was built on. *)
Record PrefetcherView : Type := mkPView {
  pv_dataset : ImageFolder;
  pv_batch_size : Z;
  pv_shuffle : bool;
  pv_stream : nat;
  pv_stop_after : pyval;
  pv_started : bool
}.

Definition view_prefetcher (p : DataPrefetcher A) : PrefetcherView :=
  {| pv_dataset := Prefetch.dataset p;
     pv_batch_size := ld_batch_size (Prefetch.loader p);
     pv_shuffle := ld_shuffle (Prefetch.loader p);
     pv_stream := Prefetch.stream p;
     pv_stop_after := Prefetch.stop_after p;
     pv_started := bool_decide (is_Some (Prefetch.loaditer p)) |}.

Definition view_data (d : TorchModelData) : list PrefetcherView :=
  view_prefetcher (trn_dl d) :: view_prefetcher (val_dl d)
    :: match aug_dl d with Some p => [view_prefetcher p] | None => [] end.

(** The steps of a run that make its stages. *)
Inductive StageStep : Type :=
| LoadStage (data_path : string) (size bs : Z)
| Bind (data_path : string) (prefetchers : list PrefetcherView)
| Announce (text : string)
| Fit (lr : Q) (n_cycle cycle_len : Z) (wds : Q).

Definition stage_step (a : action A M) : option StageStep :=
  match a with
  | CallTorchLoader path size bs => Some (LoadStage path size bs)
  | FromModelData d => Some (Bind (md_path d) (view_data d))
  | SetData d => Some (Bind (md_path d) (view_data d))
  | PyPrint text => Some (Announce text)
  | LearnerFit c => Some (Fit (fc_lr c) (fc_n_cycle c) (fc_cycle_len c) (fc_wds c))
  | _ => None
  end.

Definition stage_steps (tr : list (action A M)) : list StageStep := omap stage_step tr.

Definition loader_sizes (tr : list (action A M)) : list Z :=
  omap (fun a => match a with CallTorchLoader _ size _ => Some size | _ => None end) tr.

Definition fit_calls (tr : list (action A M)) : list (FitCall M) :=
  omap (fun a => match a with LearnerFit c => Some c | _ => None end) tr.

Definition is_training_step (a : action A M) : bool :=
  match a with
  | CallTorchLoader _ _ _ | FromModelData _ | SetData _ | LearnerFit _
  | BuildModel _ => true
  | _ => false
  end.

(** The three datasets a stage reads, cropped to [size]. *)
Definition stage_prefetchers (path : string) (size bs : Z) (dist : bool) (n : nat)
  : list PrefetcherView :=
  [ {| pv_dataset := mkImageFolder (path_join path "train")
                       (train_tfms size default_min_scale);
       pv_batch_size := bs; pv_shuffle := negb dist; pv_stream := n;
       pv_stop_after := PyNone; pv_started := false |};
    {| pv_dataset := mkImageFolder (path_join path "val") (val_tfms size);
       pv_batch_size := bs * 2; pv_shuffle := false; pv_stream := S n;
       pv_stop_after := PyNone; pv_started := false |};
    {| pv_dataset := mkImageFolder (path_join path "val")
                       (train_tfms size default_min_scale);
       pv_batch_size := bs; pv_shuffle := false; pv_stream := S (S n);
       pv_stop_after := PyNone; pv_started := false |} ].

Definition announce (name : string) : StageStep :=
  Announce (Logging.nl +:+ "-- " +:+ name +:+ " --" +:+ Logging.nl).

(** The stages [main] goes through, from stream counter [n]. *)
Definition expected_stages (args : Args) (n : nat) : list StageStep :=
  let dist := world_size args >? 1 in
  [ LoadStage (data args +:+ "-sz/160") 128 256;
    Bind (data args +:+ "-sz/160")
         (stage_prefetchers (data args +:+ "-sz/160") 128 256 dist n);
    announce "1";
    Fit (3 # 100)%Q 1 1 (2 # 100000)%Q;
    LoadStage (data args +:+ "-sz/320") 128 256;
    Bind (data args +:+ "-sz/320")
         (stage_prefetchers (data args +:+ "-sz/320") 128 256 dist (3 + n));
    announce "3";
    Fit (1 # 10)%Q 1 1 (2 # 100000)%Q;
    LoadStage (data args) 128 256;
    Bind (data args) (stage_prefetchers (data args) 128 256 dist (6 + n));
    announce "3";
    Fit (1 # 10)%Q 1 1 (2 # 100000)%Q;
    Announce "Finished!" ].

(** The keyword arguments [fit] gets from [save_args]. *)
Definition kwargs_for (args : Args) (name : string) : gmap string (SargVal M) :=
  if sink_active args
  then sink_kwargs name (save_dir args +:+ "/training_logs")
  else ∅.

Definition assert_message : string :=
  "fp16 mode requires cudnn backend to be enabled.".

(** The start-up goes through: a distributed run finds a device, and
    mixed precision finds cudnn enabled. *)
Definition startup_ok (args : Args) (env : Env) : Prop :=
  (1 < world_size args -> device_count env <> 0) /\
  (fp16 args = true -> cudnn_enabled env = true).

(** *** Vocabulary for further properties *)

(** The actions that set the process and the model up. *)
Definition is_setup (a : action A M) : bool :=
  match a with
  | SetDevice _ | InitProcessGroup _ _ _ | BuildModel _ | WrapDDP | Half => true
  | _ => false
  end.

Definition setup_steps (tr : list (action A M)) : list (action A M) :=
  List.filter is_setup tr.

(** The directories a run makes, in order. *)
Definition made_dirs (tr : list (action A M)) : list string :=
  omap (fun a => match a with MakeDirs path => Some path | _ => None end) tr.

(** The streams of the prefetchers of one [TorchModelData]. *)
Definition data_streams (d : TorchModelData) : list nat :=
  Prefetch.stream (trn_dl d) :: Prefetch.stream (val_dl d)
    :: match aug_dl d with Some p => [Prefetch.stream p] | None => [] end.

(** The streams of all prefetchers a run hands to the learner. *)
Definition bound_streams (tr : list (action A M)) : list nat :=
  flat_map
    (fun a =>
       match a with
       | FromModelData d | SetData d => data_streams d
       | _ => []
       end) tr.

(** The set-up a run is expected to perform. *)
Definition expected_setup (args : Args) (env : Env) : list (action A M) :=
  let dist := world_size args >? 1 in
  (if dist
   then [SetDevice (rank args mod device_count env);
         InitProcessGroup (dist_backend args) (dist_url args) (world_size args)]
   else [])
  ++ [BuildModel (arch args)]
  ++ (if dist then [WrapDDP] else [])
  ++ (if fp16 args then [Half] else []).

(** The directories a run is expected to make. *)
Definition expected_dirs (args : Args) : list string :=
  [save_dir args +:+ "/tmp"; save_dir args +:+ "/models"]
  ++ (if sink_active args
      then [save_dir args +:+ "/training_logs";
            save_dir args +:+ "/training_logs";
            save_dir args +:+ "/training_logs"]
      else []).

End Program.

(** [save_sched(sched, save_dir)]: what it does to the scheduler, and
    what it returns ([{}] from the guard, [None] at the end). *)
Inductive sched_op : Type :=
| SetSavePath (path : string)
| PlotLoss
| PlotLr.

Inductive sched_ret : Type := RetEmptyDict | RetNone.

Definition save_sched (args : Args) (dir : string) : list sched_op * sched_ret :=
  if negb (rank args =? 0) || str_is_empty (save_dir args) then ([], RetEmptyDict)
  else
    let log_dir := dir +:+ "/training_logs" in
    ([SetSavePath log_dir; PlotLoss; PlotLr], RetNone).

Definition sched_dirs (ops : list sched_op) : list string :=
  omap (fun o => match o with SetSavePath path => Some path | _ => None end) ops.

(** An environment without any CUDA device. *)
Definition demo_no_device_env : Env nat :=
  {| cudnn_enabled := true; device_count := 0;
     read_batches := fun _ _ _ _ => [] |}.

(** A concrete command line and environment. *)
Definition demo_args : Args :=
  {| data := "/data/imagenet"; save_dir := "/home/me/imagenet_training";
     arch := "resnet18"; workers := 4; batch_size := 256; fp16 := false;
     dist_url := "file://sync.file"; dist_backend := "nccl";
     world_size := 1; rank := 0; distributed := None; gpu := None |}.

Definition demo_env : Env nat :=
  {| cudnn_enabled := true; device_count := 1;
     read_batches := fun _ _ _ _ => ld_batches (demo_loader 2) |}.

Definition demo_fp16_args : Args :=
  {| data := "/data/imagenet"; save_dir := "/home/me/imagenet_training";
     arch := "resnet18"; workers := 4; batch_size := 256; fp16 := true;
     dist_url := "file://sync.file"; dist_backend := "nccl";
     world_size := 1; rank := 0; distributed := None; gpu := None |}.

(** A short training session as the framework drives the callback: two
    batches, the end of the epoch, the end of training; metrics are
    numbers printed in decimal, and with [print_every = 2] the second
    batch is logged. *)
Definition demo_hooks : list (Logging.hook nat * string) :=
  [ (Logging.OnBatchEnd 7%nat, "2018-05-01T10:00:01");
    (Logging.OnBatchEnd 6%nat, "2018-05-01T10:00:02");
    (Logging.OnEpochEnd [5%nat; 90%nat; 99%nat], "2018-05-01T10:00:03");
    (Logging.OnTrainEnd, "2018-05-01T10:00:04") ].

Definition demo_session : result (Logging.World nat) :=
  Logging.fire_all pretty
    ((Logging.OnTrainBegin, "2018-05-01T10:00:00"%string) :: demo_hooks)
    (Logging.__init__ "logs/1_log.txt" 2, Logging.demo_fs).

Definition demo_world : Logging.World nat :=
  match demo_session with
  | Ok w => w
  | Raise _ => (Logging.__init__ "logs/1_log.txt" 2, Logging.demo_fs)
  end.

(** The same command line on a process that is not the coordinator. *)
Definition demo_rank1_args : Args :=
  {| data := "/data/imagenet"; save_dir := "/home/me/imagenet_training";
     arch := "resnet18"; workers := 4; batch_size := 256; fp16 := false;
     dist_url := "file://sync.file"; dist_backend := "nccl";
     world_size := 2; rank := 1; distributed := None; gpu := None |}.

Definition demo_no_cudnn_env : Env nat :=
  {| cudnn_enabled := false; device_count := 1;
     read_batches := fun _ _ _ _ => ld_batches (demo_loader 2) |}.

End Driver.

(** ** The top5 metric *)

Module Metrics.

(** What [top5] gives: the tensor [correct_k * (1.0 / batch_size)], kept
    as the count and the divisor since the product is a float; or the
    error of a step that fails. *)
Inductive top5_result : Type :=
| Precision (correct_k batch_size : Z)
| ShapeError
| DivisionByZero.

(** [pred.t()] for a prediction matrix with five columns: row [k] holds
    the [k]-th prediction of every sample. *)
Definition transpose5 (pred : list (list Z)) : list (list Z) :=
  map (fun k => map (fun row => nth k row 0) pred) (seq 0 5).

(** [target.view(1, -1).expand_as(pred)] for [pred] of shape 5 x [b]: a
    row of [b] targets is repeated five times; a single target is
    broadcast along the row first; any other length does not fit. *)
Definition expand_target (target : list Z) (b : nat) : option (list (list Z)) :=
  if Nat.eqb (length target) b then Some (replicate 5 target)
  else match target with
       | [t] => Some (replicate 5 (replicate b t))
       | _ => None
       end.

(** [.float().sum(...)] of a 0/1 tensor. *)
Fixpoint count_true (l : list bool) : Z :=
  match l with
  | [] => 0
  | x :: l' => (if x then 1 else 0) + count_true l'
  end.

(** [top5] after [output.topk(5, 1, True, True)] has given [pred], one
    row of five class indices per sample. *)
Definition top5_of_pred (pred : list (list Z)) (target : list Z) : top5_result :=
  let batch_size := Z.of_nat (length target) in
  let pred_t := transpose5 pred in
  match expand_target target (length pred) with
  | None => ShapeError
  | Some expanded =>
      let correct := zip_with (zip_with Z.eqb) pred_t expanded in
      let correct_k := count_true (concat (take 5 correct)) in
      if batch_size =? 0 then DivisionByZero
      else Precision correct_k batch_size
  end.

Section WithScores.

(** Scores are opaque; [topk] stands for [row.topk(5)], the indices of
    the five largest scores of a row. *)
Context {S : Type} (topk : list S -> list Z).

Definition top5 (output : list (list S)) (target : list Z) : top5_result :=
  top5_of_pred (map topk output) target.

(** What [topk] promises for the rows of [output]: five indices, all
    different. *)
Definition topk_contract (output : list (list S)) : Prop :=
  Forall (fun row => length (topk row) = 5%nat /\ NoDup (topk row)) output.

(** The samples whose target is among their five predictions. *)
Fixpoint hits (pred : list (list Z)) (target : list Z) : Z :=
  match pred, target with
  | row :: pred', t :: target' =>
      (if existsb (Z.eqb t) row then 1 else 0) + hits pred' target'
  | _, _ => 0
  end.

End WithScores.

End Metrics.

(** * Properties of the prefetcher *)

Section PrefetchFacts.

Context {A : Type}.

#[local] Abbreviation DataPrefetcher := (DataPrefetcher A).
#[local] Abbreviation event := (event A).

Implicit Types (p q : DataPrefetcher) (tr hist : list event).

Lemma same_config_refl p : same_config p p.
Proof. repeat split. Qed.

Lemma same_config_trans p q r :
  same_config p q -> same_config q r -> same_config p r.
Proof.
  unfold same_config. intros (?&?&?&?) (?&?&?&?). repeat split; congruence.
Qed.

(** [preload] in the two situations the generator meets. *)
Lemma preload_more p b rest :
  loaditer p = Some (b :: rest) ->
  exists p',
    preload p = Ok (p', [CopyIssue (stream p) (cuda b.1) (cuda b.2)]) /\
    primed p' (cuda b.1) (cuda b.2) rest /\ same_config p p'.
Proof.
  intros H. unfold preload. rewrite H. destruct b as [i t]. simpl.
  eexists. split; [reflexivity|]. repeat split.
Qed.

Lemma preload_exhausted p :
  loaditer p = Some [] ->
  preload p = Ok (set_next p None None, []) /\ drained (set_next p None None).
Proof.
  intros H. unfold preload. rewrite H. simpl. repeat split. exact H.
Qed.

Lemma loop_head_sofar p c sofar :
  loop_head p c sofar =
  let '(p', g', out, evs) := loop_head p c [] in (p', g', out, sofar ++ evs).
Proof.
  unfold loop_head. destruct (next_input p); [|by rewrite app_nil_r].
  destruct (preload p) as [[p' evs]|e]; reflexivity.
Qed.

Lemma loop_head_more p c i t b rest :
  primed p i t (b :: rest) ->
  exists p',
    loop_head p c [] =
      (p', GSuspended (c + 1), Yielded (i, Some t),
       [WaitStream (stream p); CopyIssue (stream p) (cuda b.1) (cuda b.2);
        Yield i (Some t)]) /\
    primed p' (cuda b.1) (cuda b.2) rest /\ same_config p p'.
Proof.
  intros (Hit & Hi & Ht).
  destruct (preload_more p b rest Hit) as (p' & Hp & Hprimed & Hcfg).
  exists p'. unfold loop_head. rewrite Hi, Hp, Ht. auto.
Qed.

Lemma loop_head_last p c i t :
  primed p i t [] ->
  loop_head p c [] =
    (set_next p None None, GSuspended (c + 1), Yielded (i, Some t),
     [WaitStream (stream p); Yield i (Some t)]) /\
  drained (set_next p None None).
Proof.
  intros (Hit & Hi & Ht).
  destruct (preload_exhausted p Hit) as (Hp & Hd).
  unfold loop_head. rewrite Hi, Hp, Ht. auto.
Qed.

Lemma loop_head_drained p c sofar :
  next_input p = None -> loop_head p c sofar = (p, GDone, Stopped, sofar).
Proof. intros H. unfold loop_head. by rewrite H. Qed.


(** The cap test of a suspended generator. *)
Lemma cap_check_not_int p c :
  type_is_int (stop_after p) = false -> cap_check p c = Ok false.
Proof. intros H. unfold cap_check. by rewrite H. Qed.

Lemma cap_check_int p c k :
  stop_after p = PyInt k -> cap_check p c = Ok (c >? k).
Proof. intros H. unfold cap_check. by rewrite H. Qed.

Lemma cap_check_total p c : exists b, cap_check p c = Ok b.
Proof.
  unfold cap_check. destruct (stop_after p); simpl; eauto.
Qed.

Lemma consume_S n p g : consume (S n) p g = finish_pull (consume n) (gen_next p g).
Proof. reflexivity. Qed.

Lemma gen_next_resume p c :
  cap_check p c = Ok false -> gen_next p (GSuspended c) = loop_head p c [].
Proof. intros H. unfold gen_next. by rewrite H. Qed.

Lemma gen_next_capped p c :
  cap_check p c = Ok true -> gen_next p (GSuspended c) = (p, GDone, Stopped, []).
Proof. intros H. unfold gen_next. by rewrite H. Qed.

(** What a run from the loop test gives when no cap applies: the preloaded
    batch, then every batch still in the source iterator. *)
Lemma run_uncapped rest : forall p c i t sofar extra,
  type_is_int (stop_after p) = false ->
  primed p i t rest ->
  let r := finish_pull (consume (length rest + 1 + extra)) (loop_head p c sofar) in
  run_items r = (i, Some t) :: map to_item rest /\
  run_finish r = Returned /\ run_gen r = GDone /\
  drained (run_obj r) /\ same_config p (run_obj r).
Proof.
  induction rest as [|b rest IH]; intros p c i t sofar extra Hsa Hpr;
    rewrite loop_head_sofar.
  - destruct (loop_head_last p c i t Hpr) as [-> Hd].
    cbn [length Nat.add finish_pull].
    rewrite consume_S, gen_next_resume by (by apply cap_check_not_int).
    rewrite loop_head_drained by apply Hd. simpl.
    repeat split; apply Hd.
  - destruct (loop_head_more p c i t b rest Hpr) as (p' & -> & Hpr' & Hcfg).
    cbn [length Nat.add finish_pull].
    assert (Hsa' : type_is_int (stop_after p') = false).
    { destruct Hcfg as (_&_&_&->). exact Hsa. }
    rewrite consume_S, gen_next_resume by (by apply cap_check_not_int).
    specialize (IH p' (c + 1) (cuda b.1) (cuda b.2) [] extra Hsa' Hpr').
    cbv zeta in IH. destruct IH as (Hit & Hfin & Hgen & Hd & Hcfg').
    cbn [run_items run_finish run_gen run_obj].
    rewrite Hit. repeat split; try assumption; try apply Hd.
    all: destruct Hcfg as (?&?&?&?), Hcfg' as (?&?&?&?); congruence.
Qed.

(** With an int cap [c + m] and at least [m] batches still in the source
    iterator, a run from the loop test at count [c] hands out [m + 1]
    batches and returns. *)
Lemma run_capped m : forall rest p c i t sofar extra,
  stop_after p = PyInt (c + Z.of_nat m) ->
  primed p i t rest ->
  (m <= length rest)%nat ->
  let r := finish_pull (consume (m + 1 + extra)) (loop_head p c sofar) in
  run_items r = take (S m) ((i, Some t) :: map to_item rest) /\
  run_finish r = Returned /\ run_gen r = GDone /\ same_config p (run_obj r).
Proof.
  induction m as [|m IH]; intros rest p c i t sofar extra Hsa Hpr Hlen;
    rewrite loop_head_sofar.
  - assert (Hstep : exists p', loop_head p c [] =
        (p', GSuspended (c + 1), Yielded (i, Some t),
         snd (loop_head p c [])) /\ same_config p p').
    { destruct rest as [|b rest].
      - destruct (loop_head_last p c i t Hpr) as [-> _].
        eexists; split; [reflexivity|]. repeat split.
      - destruct (loop_head_more p c i t b rest Hpr) as (p' & -> & _ & Hcfg).
        eauto. }
    destruct Hstep as (p' & -> & Hcfg).
    cbn [Nat.add finish_pull].
    rewrite consume_S, gen_next_capped.
    + simpl. by rewrite take_0.
    + rewrite (cap_check_int p' _ (c + 0)).
      * f_equal. apply Z.gtb_gt. lia.
      * destruct Hcfg as (_&_&_&->). rewrite Hsa. reflexivity.
  - destruct rest as [|b rest]; [simpl in Hlen; lia|].
    destruct (loop_head_more p c i t b rest Hpr) as (p' & -> & Hpr' & Hcfg).
    cbn [Nat.add finish_pull].
    assert (Hsa' : stop_after p' = PyInt (c + 1 + Z.of_nat m)).
    { destruct Hcfg as (_&_&_&->). rewrite Hsa. f_equal. lia. }
    rewrite consume_S, gen_next_resume.
    2:{ rewrite (cap_check_int p' _ _ Hsa'). f_equal.
        rewrite Z.gtb_ltb. apply Z.ltb_ge. lia. }
    specialize (IH rest p' (c + 1) (cuda b.1) (cuda b.2) [] extra Hsa' Hpr').
    cbv zeta in IH. destruct IH as (Hit & Hfin & Hgen & Hcfg');
      [simpl in Hlen; lia|].
    cbn [run_items run_finish run_gen run_obj].
    rewrite Hit. repeat split; try assumption.
    all: destruct Hcfg as (?&?&?&?), Hcfg' as (?&?&?&?); congruence.
Qed.

(** The first [next(gen)]: bind a fresh source iterator, preload, and
    enter the loop. *)
Lemma gen_next_new_empty p :
  ld_batches (loader p) = [] ->
  gen_next p GNew =
    (set_next (set_loaditer p []) None None, GDone, Stopped, []).
Proof.
  intros H. unfold gen_next, loader_iter. rewrite H.
  unfold preload. simpl. reflexivity.
Qed.

Lemma gen_next_new_more p b rest :
  ld_batches (loader p) = b :: rest ->
  exists p1,
    gen_next p GNew =
      loop_head p1 0 [CopyIssue (stream p) (cuda b.1) (cuda b.2)] /\
    primed p1 (cuda b.1) (cuda b.2) rest /\ same_config p p1.
Proof.
  intros H. unfold gen_next, loader_iter. rewrite H.
  destruct (preload_more (set_loaditer p (b :: rest)) b rest eq_refl)
    as (p1 & -> & Hpr & Hcfg).
  exists p1. repeat split; try apply Hpr; apply Hcfg.
Qed.


(** A whole [for] loop over a prefetcher on which no cap applies. *)
Lemma iterate_uncapped p extra :
  type_is_int (stop_after p) = false ->
  let r := iterate (S (length (ld_batches (loader p))) + extra) p in
  run_items r = map to_item (ld_batches (loader p)) /\
  run_finish r = Returned /\ run_gen r = GDone /\
  drained (run_obj r) /\ same_config p (run_obj r).
Proof.
  intros Hsa. unfold iterate.
  destruct (ld_batches (loader p)) as [|b rest] eqn:Hb.
  - cbn [length Nat.add]. rewrite consume_S, gen_next_new_empty by exact Hb.
    simpl. repeat split.
  - destruct (gen_next_new_more p b rest Hb) as (p1 & Hstep & Hpr & Hcfg).
    cbn [length Nat.add]. rewrite consume_S, Hstep.
    replace (S (length rest + extra)) with (length rest + 1 + extra)%nat by lia.
    assert (Hsa1 : type_is_int (stop_after p1) = false).
    { destruct Hcfg as (_&_&_&->). exact Hsa. }
    pose proof (run_uncapped rest p1 0 _ _
                  [CopyIssue (stream p) (cuda b.1) (cuda b.2)] extra Hsa1 Hpr)
      as (Hit & Hfin & Hgen & Hd & Hcfg').
    rewrite Hit. repeat split; try assumption; try apply Hd.
    all: destruct Hcfg as (?&?&?&?), Hcfg' as (?&?&?&?); congruence.
Qed.

(** One [next(gen)] never changes what [__init__] fixed. *)
Lemma preload_config p p' evs : preload p = Ok (p', evs) -> same_config p p'.
Proof.
  unfold preload. destruct (loaditer p) as [it|]; [|discriminate].
  destruct it as [|[i t] rest]; simpl; intros [= <- _]; repeat split.
Qed.

Lemma loop_head_config p c sofar :
  same_config p (loop_head p c sofar).1.1.1.
Proof.
  unfold loop_head. destruct (next_input p); [|apply same_config_refl].
  destruct (preload p) as [[p' evs]|e] eqn:Hp; simpl.
  - eapply preload_config, Hp.
  - apply same_config_refl.
Qed.

Lemma gen_next_config p g : same_config p (gen_next p g).1.1.1.
Proof.
  destruct g as [|c|]; simpl.
  - destruct (preload _) as [[p1 evs]|e] eqn:Hp; simpl.
    + eapply same_config_trans; [|apply loop_head_config].
      apply preload_config in Hp. destruct Hp as (?&?&?&?). repeat split; assumption.
    + repeat split.
  - destruct (cap_check p c) as [[|]|e]; simpl;
      [apply same_config_refl|apply loop_head_config|apply same_config_refl].
  - apply same_config_refl.
Qed.

Lemma consume_config n : forall p g, same_config p (run_obj (consume n p g)).
Proof.
  induction n as [|n IH]; intros p g; [apply same_config_refl|].
  rewrite consume_S. pose proof (gen_next_config p g) as Hc.
  destruct (gen_next p g) as [[[p' g'] out] evs]. simpl in Hc.
  destruct out; simpl; try exact Hc.
  eapply same_config_trans; [exact Hc|apply IH].
Qed.

(** A finished generator stays finished. *)
Lemma consume_done n p :
  run_items (consume (S n) p GDone) = [] /\
  run_trace (consume (S n) p GDone) = [] /\
  run_finish (consume (S n) p GDone) = Returned /\
  run_obj (consume (S n) p GDone) = p.
Proof. rewrite consume_S. simpl. auto. Qed.

(** Whatever [stop_after] holds, a run from the loop test returns. *)
Lemma run_returns rest : forall p c i t sofar extra,
  primed p i t rest ->
  let r := finish_pull (consume (length rest + 1 + extra)) (loop_head p c sofar) in
  run_finish r = Returned /\ run_gen r = GDone.
Proof.
  induction rest as [|b rest IH]; intros p c i t sofar extra Hpr;
    rewrite loop_head_sofar.
  - destruct (loop_head_last p c i t Hpr) as [-> Hd].
    cbn [length Nat.add finish_pull]. rewrite consume_S.
    destruct (cap_check_total (set_next p None None) (c + 1)) as [[|] Hc].
    + rewrite gen_next_capped by exact Hc. simpl. auto.
    + rewrite gen_next_resume, loop_head_drained by (exact Hc || apply Hd).
      simpl. auto.
  - destruct (loop_head_more p c i t b rest Hpr) as (p' & -> & Hpr' & _).
    cbn [length Nat.add finish_pull run_finish run_gen]. rewrite consume_S.
    destruct (cap_check_total p' (c + 1)) as [[|] Hc].
    + rewrite gen_next_capped by exact Hc. simpl. auto.
    + rewrite gen_next_resume by exact Hc.
      apply (IH p' (c + 1) _ _ [] extra Hpr').
Qed.

Lemma iterate_returns p extra :
  let r := iterate (S (length (ld_batches (loader p))) + extra) p in
  run_finish r = Returned /\ run_gen r = GDone.
Proof.
  unfold iterate. destruct (ld_batches (loader p)) as [|b rest] eqn:Hb.
  - cbn [length Nat.add]. rewrite consume_S, gen_next_new_empty by exact Hb.
    simpl. auto.
  - destruct (gen_next_new_more p b rest Hb) as (p1 & Hstep & Hpr & _).
    cbn [length Nat.add]. rewrite consume_S, Hstep.
    replace (S (length rest + extra)) with (length rest + 1 + extra)%nat by lia.
    apply (run_returns rest p1 0 _ _ _ extra Hpr).
Qed.


(** *** Traces: copies in flight and waits before hand-over *)

Lemma count_if_app f tr1 tr2 :
  count_if f (tr1 ++ tr2) = (count_if f tr1 + count_if f tr2)%nat.
Proof.
  induction tr1 as [|e tr1 IH]; simpl; [reflexivity|].
  destruct (f e); simpl; lia.
Qed.

Lemma always_nil : always_in_flight_ok ([] : list event).
Proof. intros pre Hpre. apply prefix_nil_inv in Hpre as ->. by left. Qed.

Lemma always_snoc hist e :
  always_in_flight_ok hist -> in_flight_ok (hist ++ [e]) ->
  always_in_flight_ok (hist ++ [e]).
Proof.
  intros Hall Hlast pre [k Hk].
  destruct k as [|x k _] using rev_ind.
  - rewrite app_nil_r in Hk. by subst pre.
  - rewrite app_assoc in Hk. apply app_inj_tail in Hk as [-> _].
    apply Hall. by exists k.
Qed.

Lemma yields_nil s : yields_waited s ([] : list event).
Proof. intros [|??] ??? H; discriminate. Qed.

Lemma yields_snoc_other s hist e :
  yields_waited s hist -> is_yield e = false -> yields_waited s (hist ++ [e]).
Proof.
  intros Hy He pre i t post Heq.
  destruct post as [|x post _] using rev_ind.
  - change (pre ++ [Yield i t]) with (pre ++ [Yield i t]) in Heq.
    apply app_inj_tail in Heq as [_ ->]. discriminate.
  - rewrite app_comm_cons, app_assoc in Heq.
    apply app_inj_tail in Heq as [-> _]. by eapply Hy.
Qed.

Lemma yields_snoc_yield s hist i t (h1 h2 h3 : list event) :
  yields_waited s hist ->
  hist = h1 ++ CopyIssue s i t :: h2 ++ WaitStream s :: h3 ->
  forallb is_yield h2 = true -> forallb is_issue h3 = true ->
  yields_waited s (hist ++ [Yield i (Some t)]).
Proof.
  intros Hy Hh H2 H3 pre i' t' post Heq.
  destruct post as [|x post _] using rev_ind.
  - apply app_inj_tail in Heq as [<- [= <- <-]].
    exists t, h1, h2, h3. auto.
  - rewrite app_comm_cons, app_assoc in Heq.
    apply app_inj_tail in Heq as [-> _]. by eapply Hy.
Qed.

(** One pass of the loop keeps the trace legal. *)
Lemma loop_head_coherent s hist p c :
  coherent s hist p ->
  coherent s (hist ++ (loop_head p c []).2) (loop_head p c []).1.1.1 /\
  (loop_head p c []).1.1.2 <> GNew.
Proof.
  intros (Hs & [it Hit] & Hall & Hy & Hst). unfold loop_head.
  destruct (next_input p) as [i|] eqn:Hi.
  2:{ simpl. rewrite app_nil_r. split; [|discriminate].
      repeat split; eauto. by rewrite Hi. }
  destruct Hst as (t & p1 & p2 & Ht & Hh & Hp2 & Hcnt).
  assert (Hw : always_in_flight_ok (hist ++ [WaitStream s])).
  { apply always_snoc; [exact Hall|]. left.
    rewrite !count_if_app. simpl. lia. }
  assert (Hyw : yields_waited s (hist ++ [WaitStream s]))
    by (by apply yields_snoc_other).
  destruct it as [|b rest].
  - destruct (preload_exhausted p Hit) as [-> Hd].
    rewrite Hs, Ht. simpl. split; [|discriminate].
    change [WaitStream s; Yield i (Some t)]
      with ([WaitStream s] ++ [Yield i (Some t)]).
    rewrite app_assoc.
    repeat split; simpl; eauto.
    + apply always_snoc; [exact Hw|]. left.
      rewrite !count_if_app. simpl. lia.
    + eapply (yields_snoc_yield s _ i t p1 p2 []); eauto.
      rewrite Hh, <- app_assoc. reflexivity.
    + rewrite !count_if_app. simpl. lia.
  - destruct (preload_more p b rest Hit) as (p' & -> & Hpr' & Hcfg).
    rewrite Hs, Ht. simpl. split; [|discriminate].
    set (ci := CopyIssue s (cuda b.1) (cuda b.2)).
    change [WaitStream s; ci; Yield i (Some t)]
      with ([WaitStream s] ++ [ci] ++ [Yield i (Some t)]).
    rewrite !app_assoc.
    assert (Hci : always_in_flight_ok ((hist ++ [WaitStream s]) ++ [ci])).
    { apply always_snoc; [exact Hw|]. right.
      rewrite !count_if_app. simpl. lia. }
    destruct Hpr' as (Hit' & Hi' & Ht').
    split; [destruct Hcfg as (_&_&->&_); exact Hs|].
    split; [rewrite Hit'; eauto|].
    split.
    { apply always_snoc; [exact Hci|]. right.
      rewrite !count_if_app. simpl. lia. }
    split.
    { eapply (yields_snoc_yield s _ i t p1 p2 [ci]); eauto.
      - apply yields_snoc_other; [exact Hyw|reflexivity].
      - rewrite Hh, <- !app_assoc. reflexivity. }
    rewrite Hi'. exists (cuda b.2), (hist ++ [WaitStream s]), [Yield i (Some t)].
    repeat split; eauto.
    + rewrite <- !app_assoc. reflexivity.
    + rewrite !count_if_app. simpl. lia.
Qed.

Lemma gen_next_coherent s hist p g :
  g <> GNew -> coherent s hist p ->
  coherent s (hist ++ (gen_next p g).2) (gen_next p g).1.1.1 /\
  (gen_next p g).1.1.2 <> GNew.
Proof.
  intros Hg Hc. destruct g as [|c|]; [done| |].
  - unfold gen_next. destruct (cap_check p c) as [[|]|e]; simpl;
      rewrite ?app_nil_r; try (split; [exact Hc|discriminate]).
    by apply loop_head_coherent.
  - simpl. rewrite app_nil_r. split; [exact Hc|discriminate].
Qed.

Lemma consume_coherent s n : forall hist p g,
  g <> GNew -> coherent s hist p ->
  coherent s (hist ++ run_trace (consume n p g)) (run_obj (consume n p g)).
Proof.
  induction n as [|n IH]; intros hist p g Hg Hc.
  - simpl. by rewrite app_nil_r.
  - rewrite consume_S.
    destruct (gen_next_coherent s hist p g Hg Hc) as [Hc' Hg'].
    destruct (gen_next p g) as [[[p' g'] out] evs]. simpl in Hc', Hg'.
    destruct out; simpl; try exact Hc'.
    rewrite app_assoc. by apply IH.
Qed.

(** The first step of a new generator, from any state of the object. *)
Lemma gen_next_new_coherent p :
  coherent (stream p) (gen_next p GNew).2 (gen_next p GNew).1.1.1 /\
  (gen_next p GNew).1.1.2 <> GNew.
Proof.
  destruct (ld_batches (loader p)) as [|b rest] eqn:Hb.
  - rewrite gen_next_new_empty by exact Hb. simpl. split; [|discriminate].
    repeat split; simpl; eauto using always_nil, yields_nil.
  - destruct (gen_next_new_more p b rest Hb) as (p1 & -> & Hpr & Hcfg).
    rewrite loop_head_sofar.
    set (ci := CopyIssue (stream p) (cuda b.1) (cuda b.2)).
    assert (Hc : coherent (stream p) [ci] p1).
    { destruct Hpr as (Hit & Hi & Ht), Hcfg as (_&_&Hs&_).
      split; [exact Hs|]. split; [rewrite Hit; eauto|].
      split; [apply (always_snoc [] ci); [apply always_nil|by right]|].
      split; [apply (yields_snoc_other _ [] ci); [apply yields_nil|done]|].
      rewrite Hi. exists (cuda b.2), [], []. auto. }
    pose proof (loop_head_coherent _ _ _ 0 Hc) as H.
    destruct (loop_head p1 0 []) as [[[p' g'] out] evs]. exact H.
Qed.

Lemma iterate_coherent pulls p :
  coherent (stream p) (run_trace (iterate pulls p)) (run_obj (iterate pulls p))
  \/ pulls = O.
Proof.
  destruct pulls as [|n]; [by right|left].
  unfold iterate. rewrite consume_S.
  destruct (gen_next_new_coherent p) as [Hc Hg].
  destruct (gen_next p GNew) as [[[p' g'] out] evs]. simpl in Hc, Hg.
  destruct out; simpl; try exact Hc.
  by apply consume_coherent.
Qed.


(** The items a consumer receives are exactly the hand-overs of the trace. *)
Lemma preload_no_yield p p' evs : preload p = Ok (p', evs) -> yields_of evs = [].
Proof.
  unfold preload. destruct (loaditer p) as [it|]; [|discriminate].
  destruct it as [|[i t] rest]; simpl; by intros [= _ <-].
Qed.

Lemma yields_of_app tr1 tr2 : yields_of (tr1 ++ tr2) = yields_of tr1 ++ yields_of tr2.
Proof. apply omap_app. Qed.

Lemma loop_head_yields p c sofar :
  yields_of sofar = [] ->
  yields_of (loop_head p c sofar).2 =
    match (loop_head p c sofar).1.2 with Yielded it => [it] | _ => [] end.
Proof.
  intros Hs. unfold loop_head. destruct (next_input p) as [i|]; [|exact Hs].
  destruct (preload p) as [[p' evs]|e] eqn:Hp; cbn [fst snd].
  - rewrite !yields_of_app, Hs, (preload_no_yield _ _ _ Hp). reflexivity.
  - rewrite yields_of_app, Hs. reflexivity.
Qed.

Lemma gen_next_yields p g :
  yields_of (gen_next p g).2 =
    match (gen_next p g).1.2 with Yielded it => [it] | _ => [] end.
Proof.
  destruct g as [|c|]; simpl; [| |reflexivity].
  - destruct (preload _) as [[p1 evs]|e] eqn:Hp; [|reflexivity].
    apply loop_head_yields. eapply preload_no_yield, Hp.
  - destruct (cap_check p c) as [[|]|e]; try reflexivity.
    by apply loop_head_yields.
Qed.

Lemma consume_yields n : forall p g,
  yields_of (run_trace (consume n p g)) = run_items (consume n p g).
Proof.
  induction n as [|n IH]; intros p g; [reflexivity|].
  rewrite consume_S. pose proof (gen_next_yields p g) as Hy.
  destruct (gen_next p g) as [[[p' g'] out] evs]. simpl in Hy.
  destruct out; cbn [finish_pull run_trace run_items]; try exact Hy.
  rewrite yields_of_app, Hy, IH. reflexivity.
Qed.

End PrefetchFacts.

(** ** The claims about the prefetcher *)

(** C1. For every finite batch source of length N, iterating a
    DataPrefetcher built on it with the default [stop_after=None] hands
    out exactly N items: the source's batches, moved to the device, in
    source order, none missing and none repeated; the loop then ends by
    the generator returning. *)
Theorem C1_uncapped_yields_source_in_order
    {A : Type} (l : DataLoader A) (s extra : nat) :
  run_items (iterate (full_pulls l extra) (__init__ l s PyNone))
    = map to_item (ld_batches l) /\
  length (run_items (iterate (full_pulls l extra) (__init__ l s PyNone)))
    = length (ld_batches l) /\
  map item_payload (run_items (iterate (full_pulls l extra) (__init__ l s PyNone)))
    = map batch_payload (ld_batches l) /\
  run_finish (iterate (full_pulls l extra) (__init__ l s PyNone)) = Returned.
Proof.
  destruct (iterate_uncapped (__init__ l s PyNone) extra eq_refl)
    as (Hit & Hfin & _).
  change (run_items (iterate (full_pulls l extra) (__init__ l s PyNone))
          = map to_item (ld_batches l)) in Hit.
  change (run_finish (iterate (full_pulls l extra) (__init__ l s PyNone))
          = Returned) in Hfin.
  rewrite Hit. repeat split; [by rewrite length_map| |exact Hfin].
  rewrite <- list_fmap_compose. reflexivity.
Qed.

(** C2. Throughout any iteration, however far the consumer takes it and
    whatever [stop_after] holds: at every instant the number of copies
    issued minus the number of waits performed is 0 or 1; every item
    handed to the consumer had its own copy issued on the prefetcher's
    stream and then waited on before the hand-over; and the items the
    consumer receives are exactly those hand-overs. *)
Theorem C2_one_in_flight_and_waited_before_yield
    {A : Type} (p : DataPrefetcher A) (pulls : nat) :
  always_in_flight_ok (run_trace (iterate pulls p)) /\
  yields_waited (stream p) (run_trace (iterate pulls p)) /\
  yields_of (run_trace (iterate pulls p)) = run_items (iterate pulls p).
Proof.
  split; [|split]; [| |apply consume_yields].
  - destruct (iterate_coherent pulls p) as [(_&_&H&_)| ->];
      [exact H|apply always_nil].
  - destruct (iterate_coherent pulls p) as [(_&_&_&H&_)| ->];
      [exact H|apply yields_nil].
Qed.

(** C3. With an int cap [k], [0 <= k < N], on a source of N batches, the
    iteration hands out exactly the first k+1 batches and then returns:
    the test [count > stop_after] runs after the count was incremented and
    the batch handed out. *)
Theorem C3_cap_yields_k_plus_one
    {A : Type} (l : DataLoader A) (s : nat) (k : Z) (extra : nat) :
  0 <= k < loader_len l ->
  run_items (iterate (Z.to_nat k + 2 + extra) (__init__ l s (PyInt k)))
    = take (Z.to_nat k + 1) (map to_item (ld_batches l)) /\
  Z.of_nat (length (run_items
     (iterate (Z.to_nat k + 2 + extra) (__init__ l s (PyInt k))))) = k + 1 /\
  run_finish (iterate (Z.to_nat k + 2 + extra) (__init__ l s (PyInt k)))
    = Returned.
Proof.
  intros Hk. unfold loader_len in Hk.
  destruct (ld_batches l) as [|b rest] eqn:Hb; [simpl in Hk; lia|].
  destruct (gen_next_new_more (__init__ l s (PyInt k)) b rest Hb)
    as (p1 & Hstep & Hpr & Hcfg).
  unfold iterate.
  replace (Z.to_nat k + 2 + extra)%nat with (S (Z.to_nat k + 1 + extra)) by lia.
  rewrite consume_S, Hstep.
  assert (Hsa : stop_after p1 = PyInt (0 + Z.of_nat (Z.to_nat k))).
  { destruct Hcfg as (_&_&_&->). simpl. f_equal. lia. }
  assert (Hlen : (Z.to_nat k <= length rest)%nat) by (simpl in Hk; lia).
  pose proof (run_capped (Z.to_nat k) rest p1 0 _ _
                [CopyIssue (stream (__init__ l s (PyInt k))) (cuda b.1) (cuda b.2)]
                extra Hsa Hpr Hlen)
    as (Hit & Hfin & _).
  rewrite Hit, Hfin, (Nat.add_1_r (Z.to_nat k)).
  repeat split.
  rewrite length_take. cbn [length map]. rewrite length_map.
  simpl in Hk. lia.
Qed.

Lemma C3_cap_witness :
  0 <= 1 < loader_len (demo_loader 4) /\
  run_items (iterate 3 (__init__ (demo_loader 4) 7 (PyInt 1)))
    = map to_item [demo_batch 0; demo_batch 1].
Proof.
  assert (H : 0 <= 1 < loader_len (demo_loader 4)) by (vm_compute; split; congruence).
  split; [exact H|].
  exact (proj1 (C3_cap_yields_k_plus_one (demo_loader 4) 7 1 0 H)).
Defined.

(** C4. When the source iterator is exhausted, [preload] clears
    [next_input] and [next_target], issues no copy and returns without
    raising; a generator resumed in that state returns ([StopIteration],
    the normal end of a sequence); and a [for] loop over a fresh
    prefetcher, whatever [stop_after] holds, ends by the generator
    returning, never by an exception. *)
Theorem C4_exhaustion_is_normal_termination
    {A : Type} (p : DataPrefetcher A) (c : Z) :
  loaditer p = Some [] ->
  preload p = Ok (set_next p None None, []) /\
  next_input (set_next p None None) = None /\
  next_target (set_next p None None) = None /\
  gen_next (set_next p None None) (GSuspended c)
    = (set_next p None None, GDone, Stopped, []) /\
  (forall (l : DataLoader A) (s : nat) (sa : pyval) (extra : nat),
     run_finish (iterate (full_pulls l extra) (__init__ l s sa)) = Returned /\
     run_gen (iterate (full_pulls l extra) (__init__ l s sa)) = GDone).
Proof.
  intros Hit. destruct (preload_exhausted p Hit) as [Hp Hd].
  repeat split; try exact Hp.
  - destruct (cap_check_total (set_next p None None) c) as [[|] Hc].
    + by apply gen_next_capped.
    + rewrite gen_next_resume by exact Hc. by apply loop_head_drained.
  - apply (iterate_returns (__init__ l s sa) extra).
  - apply (iterate_returns (__init__ l s sa) extra).
Qed.

Lemma C4_exhaustion_witness :
  loaditer (set_loaditer (__init__ (demo_loader 2) 0 PyNone) []) = Some [] /\
  preload (set_loaditer (__init__ (demo_loader 2) 0 PyNone) [])
    = Ok (set_next (set_loaditer (__init__ (demo_loader 2) 0 PyNone) []) None None, []).
Proof.
  split; [reflexivity|].
  exact (proj1 (C4_exhaustion_is_normal_termination
                  (set_loaditer (__init__ (demo_loader 2) 0 PyNone) []) 2 eq_refl)).
Defined.

(** C6, as stated, fails: a prefetcher whose sequence ended by source
    exhaustion produces the whole sequence again when the same object is
    iterated again. *)
Lemma C6_same_prefetcher_restarts_counterexample :
  run_finish (iterate 3 (__init__ (demo_loader 2) 0 PyNone)) = Returned /\
  run_items (iterate 3 (__init__ (demo_loader 2) 0 PyNone))
    = map to_item [demo_batch 0; demo_batch 1] /\
  run_items (iterate 3 (run_obj (iterate 3 (__init__ (demo_loader 2) 0 PyNone))))
    = map to_item [demo_batch 0; demo_batch 1] /\
  ~ (forall pulls,
       run_items (iterate pulls
         (run_obj (iterate 3 (__init__ (demo_loader 2) 0 PyNone)))) = []).
Proof.
  repeat split; try reflexivity.
  intros H. specialize (H 3%nat). discriminate H.
Qed.

(** C6, amended. After the sequence ended by source exhaustion the
    generator that produced it is finished and stays so: resuming it gives
    no item and no stream operation. The batch sequence is produced again
    by a new iteration, which takes a fresh iterator from the loader; the
    same DataPrefetcher object serves, and hands out the whole source
    again. *)
Theorem C6_exhausted_generator_stays_done_new_iteration_restarts
    {A : Type} (l : DataLoader A) (s extra : nat) (again : nat) :
  run_gen (iterate (full_pulls l extra) (__init__ l s PyNone)) = GDone /\
  run_items (consume (S again)
      (run_obj (iterate (full_pulls l extra) (__init__ l s PyNone))) GDone) = [] /\
  run_trace (consume (S again)
      (run_obj (iterate (full_pulls l extra) (__init__ l s PyNone))) GDone) = [] /\
  run_items (iterate (full_pulls l again)
      (run_obj (iterate (full_pulls l extra) (__init__ l s PyNone))))
    = map to_item (ld_batches l).
Proof.
  destruct (iterate_uncapped (__init__ l s PyNone) extra eq_refl)
    as (_ & _ & Hgen & _ & Hcfg).
  change (run_gen (iterate (full_pulls l extra) (__init__ l s PyNone)) = GDone)
    in Hgen.
  change (same_config (__init__ l s PyNone)
            (run_obj (iterate (full_pulls l extra) (__init__ l s PyNone))))
    in Hcfg.
  set (q := run_obj (iterate (full_pulls l extra) (__init__ l s PyNone))) in *.
  destruct (consume_done again q) as (Hi & Ht & _).
  repeat split; try assumption.
  destruct Hcfg as (Hl & _ & _ & Hsa). simpl in Hl, Hsa.
  assert (Hq : type_is_int (stop_after q) = false) by (by rewrite Hsa).
  destruct (iterate_uncapped q again Hq) as (Hit & _).
  rewrite Hl in Hit. exact Hit.
Qed.

(** C8. The reported length of a DataPrefetcher is the length of its
    loader, whatever [stop_after] holds, when it is built and after any
    iteration of it. *)
Theorem C8_len_is_loader_len
    {A : Type} (l : DataLoader A) (s : nat) (sa : pyval) (pulls : nat) :
  __len__ (__init__ l s sa) = loader_len l /\
  __len__ (run_obj (iterate pulls (__init__ l s sa))) = loader_len l.
Proof.
  split; [reflexivity|].
  destruct (consume_config pulls (__init__ l s sa) GNew) as (Hl & _).
  unfold __len__, iterate. rewrite Hl. reflexivity.
Qed.

(** C10. The cap applies only to an int: when [stop_after] is [None] (the
    default) or any other non-int value, the cap test is false at every
    count, without the comparison being evaluated, and the iteration
    hands out every batch of the source and ends by exhaustion. *)
Theorem C10_non_int_cap_never_triggers
    {A : Type} (l : DataLoader A) (s : nat) (sa : pyval) (extra : nat) :
  type_is_int sa = false ->
  (forall (p : DataPrefetcher A) (count : Z),
     stop_after p = sa -> cap_check p count = Ok false) /\
  run_items (iterate (full_pulls l extra) (__init__ l s sa))
    = map to_item (ld_batches l) /\
  run_finish (iterate (full_pulls l extra) (__init__ l s sa)) = Returned /\
  drained (run_obj (iterate (full_pulls l extra) (__init__ l s sa))).
Proof.
  intros Hsa. split.
  - intros p count Hp. apply cap_check_not_int. by rewrite Hp.
  - destruct (iterate_uncapped (__init__ l s sa) extra Hsa)
      as (Hit & Hfin & _ & Hd & _).
    repeat split; first [exact Hit|exact Hfin|apply Hd].
Qed.

Lemma C10_non_int_cap_witness :
  type_is_int (PyBool true) = false /\
  run_items (iterate 4 (__init__ (demo_loader 3) 5 (PyBool true)))
    = map to_item [demo_batch 0; demo_batch 1; demo_batch 2].
Proof.
  split; [reflexivity|].
  exact (proj1 (proj2 (C10_non_int_cap_never_triggers
                         (demo_loader 3) 5 (PyBool true) 0 eq_refl))).
Defined.

(** * Properties of the logging callback *)

Import Logging.

Lemma append_nil_l (s : string) : EmptyString +:+ s = s.
Proof. reflexivity. Qed.

Lemma append_cons (c : ascii) (s t : string) : String c s +:+ t = String c (s +:+ t).
Proof. reflexivity. Qed.

Lemma append_assoc (a b c : string) : (a +:+ b) +:+ c = a +:+ (b +:+ c).
Proof.
  induction a as [|x a IH]; [reflexivity|].
  rewrite !append_cons. by f_equal.
Qed.

Lemma append_nil_r (a : string) : a +:+ EmptyString = a.
Proof.
  induction a as [|x a IH]; [reflexivity|].
  rewrite append_cons. by f_equal.
Qed.

Lemma has_line_end_app (a b : string) :
  has_line_end (a +:+ b) = has_line_end a || has_line_end b.
Proof.
  induction a as [|x a IH]; [reflexivity|].
  rewrite append_cons. simpl.
  destruct (Ascii.eqb x "010" || Ascii.eqb x "013"); [reflexivity|exact IH].
Qed.

Lemma log_record_has_line_end now text : has_line_end (log_record now text) = true.
Proof.
  unfold log_record. rewrite !has_line_end_app.
  replace (has_line_end nl) with true by reflexivity.
  by rewrite !orb_true_r.
Qed.

Lemma lines_from_app (s : string) : forall cur rest,
  has_line_end s = false ->
  lines_from cur (s +:+ rest) = lines_from (cur +:+ s) rest.
Proof.
  induction s as [|c s IH]; intros cur rest Hs.
  - by rewrite append_nil_l, append_nil_r.
  - rewrite append_cons. simpl in Hs |- *.
    destruct (Ascii.eqb c "010") eqn:Hc; [discriminate|].
    destruct (Ascii.eqb c "013"); [discriminate|]. simpl in Hs.
    rewrite IH by exact Hs. rewrite append_assoc. reflexivity.
Qed.

Lemma lines_records (entries : list (string * string)) :
  Forall one_line entries ->
  lines (records_text entries) = map keyed_line entries.
Proof.
  unfold lines. induction 1 as [|[now text] entries [Hn Ht] _ IH]; [reflexivity|].
  simpl in Hn, Ht. cbn [records_text map]. unfold log_record, keyed_line. cbn [fst snd].
  replace ((now +:+ tab +:+ text +:+ nl) +:+ records_text entries)
    with ((now +:+ tab +:+ text) +:+ nl +:+ records_text entries)
    by (by rewrite !append_assoc).
  rewrite lines_from_app.
  2:{ rewrite !has_line_end_app, Hn, Ht. reflexivity. }
  rewrite append_nil_l. unfold nl at 1. rewrite append_cons, append_nil_l.
  simpl. rewrite IH. reflexivity.
Qed.

Lemma lines_whole (a : string) : forall cur b,
  ends_nl a = true ->
  lines_from cur (a +:+ b) = lines_from cur a ++ lines b.
Proof.
  induction a as [|c a IH]; intros cur b Ha; [discriminate|].
  rewrite append_cons. destruct a as [|c' a'].
  - cbn [ends_nl] in Ha. rewrite append_nil_l. cbn [lines_from]. rewrite Ha.
    reflexivity.
  - change (ends_nl (String c' a') = true) in Ha. cbn [lines_from].
    destruct (Ascii.eqb c "010"); rewrite IH by exact Ha; reflexivity.
Qed.

(** Appending to a text of whole lines adds lines, and changes none. *)
Lemma lines_app (a b : string) :
  whole_lines a = true -> lines (a +:+ b) = lines a ++ lines b.
Proof.
  unfold whole_lines. destruct a as [|c a]; [reflexivity|].
  intros Ha. apply lines_whole. exact Ha.
Qed.

Lemma ends_nl_app (a b : string) :
  b <> EmptyString -> ends_nl (a +:+ b) = ends_nl b.
Proof.
  intros Hb. induction a as [|c a IH]; [reflexivity|].
  rewrite append_cons. cbn [ends_nl].
  destruct (a +:+ b) eqn:Hab; [|exact IH].
  destruct a; [|discriminate]. rewrite append_nil_l in Hab. contradiction.
Qed.

Lemma records_text_not_empty (entries : list (string * string)) :
  entries <> [] -> records_text entries <> EmptyString.
Proof.
  destruct entries as [|[now text] entries]; [done|]. intros _ H.
  apply (f_equal has_line_end) in H. cbn [records_text] in H.
  rewrite has_line_end_app, log_record_has_line_end in H. discriminate.
Qed.

(** Records are whole lines. *)
Lemma records_text_whole (entries : list (string * string)) :
  entries <> [] -> ends_nl (records_text entries) = true.
Proof.
  induction entries as [|[now text] entries IH]; [done|]. intros _.
  cbn [records_text]. destruct entries as [|e entries].
  - cbn [records_text]. rewrite append_nil_r. unfold log_record.
    rewrite <- !append_assoc. rewrite ends_nl_app by (by unfold nl).
    reflexivity.
  - rewrite ends_nl_app by (by apply records_text_not_empty).
    by apply IH.
Qed.

(** Numbers are printed without line ends. *)
Lemma pretty_N_char_one_line (n : N) :
  Ascii.eqb (pretty_N_char n) "010" || Ascii.eqb (pretty_N_char n) "013" = false.
Proof. unfold pretty_N_char. by repeat case_match. Qed.

Lemma pretty_N_go_one_line (x : N) : forall s,
  has_line_end (pretty_N_go x s) = has_line_end s.
Proof.
  induction (N.lt_wf_0 x) as [x _ IH]; intros s.
  assert (x = 0 \/ 0 < x)%N as [->|Hx] by lia.
  - by rewrite pretty_N_go_0.
  - rewrite pretty_N_go_step by done. rewrite IH by (by apply N.div_lt).
    cbn [has_line_end]. by rewrite pretty_N_char_one_line.
Qed.

Lemma pretty_N_one_line (x : N) : has_line_end (pretty x) = false.
Proof.
  unfold pretty, pretty_N. case_decide; [reflexivity|].
  by rewrite pretty_N_go_one_line.
Qed.

Lemma pretty_nat_one_line (n : nat) : has_line_end (pretty n) = false.
Proof. apply pretty_N_one_line. Qed.

Lemma pretty_Z_one_line (z : Z) : has_line_end (pretty z) = false.
Proof.
  destruct z as [|p|p]; [reflexivity|apply pretty_N_one_line|].
  change (pretty (Z.neg p)) with ("-" +:+ pretty (N.pos p)).
  by rewrite has_line_end_app, pretty_N_one_line.
Qed.

Section SinkFacts.

Context {M : Type} (fmt : M -> string).

#[local] Abbreviation World := (World M).

Lemma records_text_snoc entries now text :
  records_text (entries ++ [(now, text)]) = records_text entries +:+ log_record now text.
Proof.
  induction entries as [|[n t] entries IH]; simpl.
  - by rewrite append_nil_r.
  - by rewrite IH, append_assoc.
Qed.

(** A record goes to the file at once, and [log] touches nothing else. *)
Lemma log_ok path old entries now text (w w' : World) :
  sink_ok path old entries w ->
  log now text w = Ok w' ->
  sink_ok path old (entries ++ [(now, text)]) w' /\
  print_every w'.1 = print_every w.1 /\ counters_of w'.1 = counters_of w.1.
Proof.
  intros (Hp & Hfs & file & Hf & Hfp & Hfm & Hfb & Hpend). unfold log.
  rewrite Hf. unfold file_write.
  destruct (f_closed file); [discriminate|].
  rewrite Hfb, log_record_has_line_end. cbn [Z.eqb Pos.eqb andb flush].
  intros [= <-]. unfold sink_ok. cbn [fst snd].
  split; [|split; reflexivity].
  split; [exact Hp|]. split.
  - cbn [f_path f_pending write_text fs_files]. rewrite Hfp, lookup_insert_eq.
    unfold contents. rewrite Hfs, Hpend.
    by rewrite append_nil_l, records_text_snoc, append_assoc.
  - eexists. split; [reflexivity|]. cbn. auto.
Qed.

(** One hook: if it returns, the log has gained the records of
    [hook_records], and the counters are those of [hook_next]. *)
Lemma fire_written path old every entries c h now (w w' : World) :
  sink_ok path old entries w ->
  print_every w.1 = every -> counters_of w.1 = Some c ->
  fire fmt h now w = Ok w' ->
  sink_ok path old (entries ++ hook_records fmt every c h now) w' /\
  print_every w'.1 = every /\ counters_of w'.1 = Some (hook_next c h).
Proof.
  intros Hok Hev Hc. unfold counters_of in Hc.
  destruct (batch w.1) as [b|] eqn:Hb; [|discriminate].
  destruct (epoch w.1) as [e|] eqn:He; [|discriminate].
  injection Hc as <-.
  destruct h as [|m|ms|]; cbn [fire hook_records hook_next n_batch n_epoch n_loss].
  - (* on_train_begin reopens the file in append mode *)
    unfold on_train_begin, py_open. cbn [String.eqb Ascii.eqb Bool.eqb fst snd].
    cbn [set_counters save_path].
    destruct (can_open w.2 (save_path w.1)) as [[]|ex]; [|discriminate].
    destruct Hok as (Hp & Hfs & _).
    set (w1 := (set_f (set_counters w.1 (Some 0) (Some 0))
                  {| f_path := save_path w.1; f_mode := "a"; f_buffering := 1;
                     f_pending := EmptyString; f_closed := false |},
                write_text w.2 (save_path w.1) (contents w.2 (save_path w.1))) : World).
    intros Hlog.
    assert (Hok1 : sink_ok path old entries w1).
    { split; [exact Hp|]. split.
      - subst w1. cbn [snd write_text fs_files]. rewrite Hp, lookup_insert_eq.
        unfold contents. by rewrite Hfs.
      - eexists. split; [reflexivity|]. cbn. auto. }
    destruct (log_ok _ _ _ _ _ _ _ Hok1 Hlog) as (Hok' & Hev' & Hc').
    split; [exact Hok'|]. split; [rewrite Hev'; exact Hev|].
    rewrite Hc'. reflexivity.
  - (* on_batch_end *)
    unfold on_batch_end. cbn [fst snd set_last_loss batch epoch print_every set_counters].
    rewrite Hb, He, Hev.
    destruct (every =? 0); [discriminate|].
    set (w1 := (set_counters (set_last_loss w.1 m) (Some (b + 1)) (Some e), w.2) : World).
    assert (Hok1 : sink_ok path old entries w1).
    { destruct Hok as (Hp & Hfs & file & Hf & Hrest).
      split; [exact Hp|]. split; [exact Hfs|]. exists file. split; [exact Hf|exact Hrest]. }
    destruct ((b + 1) mod every =? 0).
    + intros Hlog.
      destruct (log_ok _ _ _ _ _ _ _ Hok1 Hlog) as (Hok' & Hev' & Hc').
      split; [exact Hok'|]. split; [rewrite Hev'; exact Hev|].
      rewrite Hc'. reflexivity.
    + intros [= <-]. rewrite app_nil_r. split; [exact Hok1|].
      split; [exact Hev|reflexivity].
  - (* on_epoch_end *)
    unfold on_epoch_end. rewrite He.
    destruct (last_loss w.1) as [loss|] eqn:Hl; [|discriminate].
    destruct (log _ _ w) as [[cb fs]|ex] eqn:Hlog; [|discriminate].
    intros [= <-].
    destruct (log_ok _ _ _ _ _ _ _ Hok Hlog)
      as ((Hp & Hfs & file & Hf & Hrest) & Hev' & Hc').
    cbn [fst snd] in *. unfold counters_of in Hc'. rewrite Hb, He, Hl in Hc'.
    destruct (batch cb) as [b'|]; [|discriminate].
    destruct (epoch cb) as [e'|]; [|discriminate].
    injection Hc' as -> -> Hl'.
    split; [|split].
    + split; [exact Hp|]. split; [exact Hfs|].
      exists file. split; [exact Hf|exact Hrest].
    + cbn. rewrite Hev'. exact Hev.
    + unfold counters_of. cbn. rewrite Hl'. reflexivity.
  - (* on_train_end *)
    unfold on_train_end.
    destruct (log _ _ w) as [[cb fs]|ex] eqn:Hlog; [|discriminate].
    destruct (log_ok _ _ _ _ _ _ _ Hok Hlog)
      as ((Hp & Hfs & file & Hf & Hfp & Hfm & Hfb & Hpend) & Hev' & Hc').
    cbn [fst snd] in *. rewrite Hf. unfold file_close, flush. intros [= <-].
    split; [|split].
    + split; [exact Hp|]. split.
      * cbn [snd write_text fs_files]. rewrite Hfp, lookup_insert_eq.
        unfold contents. rewrite Hfs, Hpend. by rewrite append_nil_r.
      * eexists. split; [reflexivity|]. cbn. auto.
    + cbn. rewrite Hev'. exact Hev.
    + unfold counters_of in *. cbn. rewrite Hc', Hb, He. reflexivity.
Qed.

Lemma fire_all_written path old every hs : forall entries c (w w' : World),
  sink_ok path old entries w ->
  print_every w.1 = every -> counters_of w.1 = Some c ->
  fire_all fmt hs w = Ok w' ->
  sink_ok path old (entries ++ written fmt every c hs) w'.
Proof.
  induction hs as [|[h now] hs IH]; intros entries c w w' Hok Hev Hc.
  - intros [= <-]. cbn [written]. by rewrite app_nil_r.
  - cbn [fire_all written].
    destruct (fire fmt h now w) as [w1|ex] eqn:Hfire; [|discriminate].
    intros Hall.
    destruct (fire_written _ _ _ _ _ _ _ _ _ Hok Hev Hc Hfire) as (Hok1 & Hev1 & Hc1).
    rewrite app_assoc. exact (IH _ _ _ _ Hok1 Hev1 Hc1 Hall).
Qed.

(** Starting the sink: the first [on_train_begin] of a new callback. *)
Lemma train_begin_ok path every now (fs : FileSystem) (w' : World) :
  on_train_begin now (__init__ path every, fs) = Ok w' ->
  sink_ok path (contents fs path) [(now, tab +:+ "on_train_begin"%string)] w' /\
  print_every w'.1 = every /\ counters_of w'.1 = Some no_counts.
Proof.
  unfold on_train_begin, py_open. cbn [String.eqb Ascii.eqb Bool.eqb fst snd].
  cbn [set_counters save_path __init__].
  destruct (can_open fs path) as [[]|ex]; [|discriminate]. intros Hlog.
  eapply (log_ok path (contents fs path) []) in Hlog.
  - destruct Hlog as (Hok & Hev & Hc). split; [exact Hok|]. split; [exact Hev|].
    rewrite Hc. reflexivity.
  - split; [reflexivity|]. split.
    + cbn [snd fst records_text write_text fs_files].
      by rewrite lookup_insert_eq, append_nil_r.
    + eexists. split; [reflexivity|]. cbn. auto.
Qed.

(** A whole use of a new callback: if the hooks return, the log file holds
    what it held before followed by the records of [written]. *)
Lemma session_written path every now (fs : FileSystem) hs (w' : World) :
  fire_all fmt ((OnTrainBegin, now) :: hs) (__init__ path every, fs) = Ok w' ->
  sink_ok path (contents fs path)
    (written fmt every no_counts ((OnTrainBegin, now) :: hs)) w'.
Proof.
  cbn [fire_all fire].
  destruct (on_train_begin now (__init__ path every, fs)) as [w1|e] eqn:Hbegin;
    [|discriminate].
  intros Hall.
  destruct (train_begin_ok path every now fs w1 Hbegin) as (Hok1 & Hev1 & Hc1).
  exact (fire_all_written path (contents fs path) every hs _ _ w1 w' Hok1 Hev1 Hc1 Hall).
Qed.

(** The keys of the records are clock readings of the hooks, in the order
    of the hooks, each hook giving at most one. *)
Lemma written_stamps every hs : forall c,
  map fst (written fmt every c hs) `sublist_of` map snd hs.
Proof.
  induction hs as [|[h now] hs IH]; intros c; [constructor|].
  cbn [written map snd]. rewrite map_app.
  assert (Hh : map fst (hook_records fmt every c h now) = [now]
               \/ hook_records fmt every c h now = []).
  { destruct h as [|m|ms|]; cbn [hook_records].
    - by left.
    - destruct (_ =? 0); [by left|by right].
    - destruct (n_loss c); [by left|by right].
    - by left. }
  destruct Hh as [-> | ->].
  - apply sublist_skip, IH.
  - apply sublist_cons, IH.
Qed.

Lemma zip_fields_one_line names : forall (ms : list M),
  (forall m, has_line_end (fmt m) = false) ->
  Forall (fun k => has_line_end k = false) names ->
  has_line_end (zip_fields fmt names ms) = false.
Proof.
  intros ms Hfmt Hnames. revert ms.
  induction Hnames as [|k names Hk _ IH]; intros ms; [by destruct ms|].
  destruct ms as [|v ms]; [reflexivity|]. cbn [zip_fields].
  rewrite !has_line_end_app, Hk, Hfmt, IH. reflexivity.
Qed.

(** Single-line clock readings and metrics give single-line records. *)
Lemma written_one_line every hs : forall c,
  (forall m, has_line_end (fmt m) = false) ->
  Forall (fun t => has_line_end t = false) (map snd hs) ->
  Forall one_line (written fmt every c hs).
Proof.
  intros c Hfmt. revert c.
  induction hs as [|[h now] hs IH]; intros c Hs; [constructor|].
  cbn [map snd] in Hs. apply Forall_cons in Hs as [Hnow Hs].
  cbn [written]. apply Forall_app. split; [|by apply IH].
  destruct h as [|m|ms|]; cbn [hook_records].
  - repeat constructor; exact Hnow.
  - destruct (_ =? 0); [|constructor].
    repeat constructor; [exact Hnow|]. cbn [snd]. unfold batch_message.
    by rewrite !has_line_end_app, !pretty_Z_one_line, Hfmt.
  - destruct (n_loss c) as [loss|]; [|constructor].
    repeat constructor; [exact Hnow|]. cbn [snd]. unfold epoch_message.
    rewrite !has_line_end_app, !pretty_Z_one_line, Hfmt, zip_fields_one_line;
      [reflexivity|exact Hfmt|by repeat constructor].
  - repeat constructor; exact Hnow.
Qed.

End SinkFacts.

(** * Properties of the driver *)

Import Driver.

Ltac eval_script :=
  cbn -[path_join sink_kwargs String.append Z.modulo nl str_is_empty].

Section DriverFacts.

Context {A M : Type}.

Implicit Types (args : Args) (env : Env A).

(** [save_args] by cases of its guard. *)
Lemma save_args_guard args name dir n :
  save_args (A := A) (M := M) args name dir n =
    (if sink_active args then [MakeDirs (dir +:+ "/training_logs")] else [],
     Ok (if sink_active args
         then sink_kwargs name (dir +:+ "/training_logs") else ∅, n)).
Proof.
  unfold save_args, sink_active.
  destruct (negb (rank args =? 0) || str_is_empty (save_dir args)); reflexivity.
Qed.

Lemma sink_active_iff args :
  sink_active args = true <-> rank args = 0 /\ save_dir args <> EmptyString.
Proof.
  unfold sink_active, str_is_empty.
  rewrite negb_true_iff, orb_false_iff, negb_false_iff, Z.eqb_eq.
  split; intros [Hr Hs]; (split; [exact Hr|]).
  - intros Heq. apply String.eqb_neq in Hs. contradiction.
  - by apply String.eqb_neq.
Qed.

(** What [fit] hands to [learner.fit]. *)
Lemma fit_passes_kwargs args name lr cl sampler wds clr n :
  exists tr,
    fit (A := A) (M := M) args name lr cl sampler wds clr n = (tr, Ok (tt, n)) /\
    map fc_sargs (fit_calls tr) = [kwargs_for args name] /\
    stage_steps tr = [announce name; Fit lr 1 cl wds].
Proof.
  unfold fit, save_args, kwargs_for, sink_active.
  destruct (negb (rank args =? 0) || str_is_empty (save_dir args));
    eval_script; eexists; repeat split.
Qed.

(** A run of [main] whose start-up goes through. *)
Lemma main_runs args env n :
  startup_ok args env ->
  exists tr,
    main (M := M) args env n = (tr, Ok (tt, (9 + n)%nat)) /\
    stage_steps tr = expected_stages args n /\
    map fc_sargs (fit_calls tr)
      = [kwargs_for args "1"; kwargs_for args "3"; kwargs_for args "3"].
Proof.
  intros [Hd Hf].
  unfold main, fit, save_args, expected_stages, kwargs_for, sink_active.
  cbv zeta.
  assert (Hdc : (1 <? world_size args) = true -> (device_count env =? 0) = false).
  { intros H. apply Z.eqb_neq, Hd. by apply Z.ltb_lt. }
  rewrite Z.gtb_ltb in *.
  destruct (negb (rank args =? 0) || str_is_empty (save_dir args)) eqn:Hs;
    (destruct (1 <? world_size args) eqn:Hw; [specialize (Hdc eq_refl)|]);
    (destruct (fp16 args) eqn:Hfp; [pose proof (Hf eq_refl) as Hc|]).
  all: eval_script; rewrite ?Hs, ?Hdc, ?Hfp, ?Hc;
       eval_script; rewrite ?Hs, ?Hdc, ?Hfp, ?Hc; eval_script.
  all: eexists; split; [reflexivity|].
  all: split; reflexivity.
Qed.

(** A run of [main] with mixed precision asked for and cudnn disabled. *)
Lemma main_asserts args env n :
  (1 < world_size args -> device_count env <> 0) ->
  fp16 args = true -> cudnn_enabled env = false ->
  exists tr,
    main (M := M) args env n = (tr, Raise (AssertionError assert_message)) /\
    forallb (fun a => negb (is_training_step a)) tr = true.
Proof.
  intros Hd Hfp Hc. unfold main. cbv zeta.
  assert (Hdc : (1 <? world_size args) = true -> (device_count env =? 0) = false).
  { intros H. apply Z.eqb_neq, Hd. by apply Z.ltb_lt. }
  rewrite Z.gtb_ltb in *.
  destruct (1 <? world_size args) eqn:Hw; [specialize (Hdc eq_refl)|].
  all: eval_script; rewrite ?Hdc, ?Hfp, ?Hc; eval_script; rewrite ?Hfp, ?Hc;
       eval_script.
  all: eexists; split; reflexivity.
Qed.

End DriverFacts.

(** ** The claims about the driver and the sink *)

(** C5, as stated, fails: the three stages do not run at sizes 128, 320
    and full resolution. Every call of [torch_loader] passes size 128. *)
Lemma C5_stage_sizes_counterexample :
  loader_sizes (main (M := unit) demo_args demo_env 0%nat).1 = [128; 128; 128] /\
  ~ (exists full,
       loader_sizes (main (M := unit) demo_args demo_env 0%nat).1 = [128; 320; full]).
Proof.
  split; [reflexivity|]. intros [full H]. vm_compute in H. discriminate H.
Qed.

(** C5, amended. When the start-up goes through, [main] runs three stages
    one after the other, on the datasets [<data>-sz/160], [<data>-sz/320]
    and [<data>], each at crop size 128 and batch size 256. Each stage
    calls [torch_loader], which builds three loaders (train, validation,
    augmented validation) and wraps each in a new DataPrefetcher with a
    stream of its own and no cap, binds the result to the learner, and
    performs exactly one fit cycle ([learner.fit(lr, 1, cycle_len=1)]),
    with learning rates 0.03, 0.1 and 0.1 and weight decay 2e-5 in every
    stage; then the run ends. *)
Theorem C5_three_stages_one_fit_cycle_each
    {A M : Type} (args : Args) (env : Env A) (n : nat) :
  startup_ok args env ->
  exists tr,
    main (M := M) args env n = (tr, Ok (tt, (9 + n)%nat)) /\
    stage_steps tr = expected_stages args n /\
    loader_sizes tr = [128; 128; 128] /\
    length (fit_calls tr) = 3%nat.
Proof.
  intros Hok. destruct (main_runs (M := M) args env n Hok) as (tr & Hrun & Hst & Hkw).
  exists tr. split; [exact Hrun|]. split; [exact Hst|]. split.
  - assert (Hsz : forall t : list (action A M),
        loader_sizes t
        = omap (fun s => match s with LoadStage _ size _ => Some size | _ => None end)
            (stage_steps t)).
    { induction t as [|a t IH]; [reflexivity|].
      destruct a; simpl; rewrite ?IH; reflexivity. }
    rewrite Hsz, Hst. reflexivity.
  - apply (f_equal length) in Hkw. rewrite length_map in Hkw. exact Hkw.
Qed.

Lemma C5_three_stages_witness :
  startup_ok demo_args demo_env /\
  exists tr,
    main (M := unit) demo_args demo_env 0%nat = (tr, Ok (tt, 9%nat)) /\
    stage_steps tr = expected_stages demo_args 0%nat /\
    loader_sizes tr = [128; 128; 128] /\
    length (fit_calls tr) = 3%nat.
Proof.
  assert (H : startup_ok demo_args demo_env).
  { split; [intros H; vm_compute in H; discriminate H|intros H; reflexivity]. }
  split; [exact H|].
  exact (C5_three_stages_one_fit_cycle_each (M := unit) demo_args demo_env 0%nat H).
Defined.

(** C7. With [--fp16] set: if cudnn is not enabled, [main] stops with the
    assertion error before the model is built, before any loader is made
    and before any fit; if cudnn is enabled, the assertion passes and the
    three stages are run. (A distributed run is taken to find a device:
    [rank % device_count()] comes before the assertion.) *)
Theorem C7_fp16_needs_cudnn
    {A M : Type} (args : Args) (env : Env A) (n : nat) :
  (1 < world_size args -> device_count env <> 0) ->
  fp16 args = true ->
  (cudnn_enabled env = false ->
     exists tr,
       main (M := M) args env n = (tr, Raise (AssertionError assert_message)) /\
       forallb (fun a => negb (is_training_step a)) tr = true /\
       fit_calls tr = []) /\
  (cudnn_enabled env = true ->
     exists tr,
       main (M := M) args env n = (tr, Ok (tt, (9 + n)%nat)) /\
       stage_steps tr = expected_stages args n /\
       length (fit_calls tr) = 3%nat).
Proof.
  intros Hd Hfp. split; intros Hc.
  - destruct (main_asserts (M := M) args env n Hd Hfp Hc) as (tr & Hrun & Hno).
    exists tr. split; [exact Hrun|]. split; [exact Hno|].
    clear Hrun. induction tr as [|a tr IH]; [reflexivity|].
    simpl in Hno. apply andb_true_iff in Hno as [Ha Hno].
    destruct a; try discriminate Ha; simpl; by apply IH.
  - destruct (main_runs (M := M) args env n) as (tr & Hrun & Hst & Hkw).
    { split; [exact Hd|intros _; exact Hc]. }
    exists tr. split; [exact Hrun|]. split; [exact Hst|].
    apply (f_equal length) in Hkw. rewrite length_map in Hkw. exact Hkw.
Qed.

Lemma C7_fp16_needs_cudnn_witness :
  ((1 < world_size demo_fp16_args -> device_count demo_no_cudnn_env <> 0) /\
   fp16 demo_fp16_args = true /\
   cudnn_enabled demo_no_cudnn_env = false /\
   exists tr,
     main (M := unit) demo_fp16_args demo_no_cudnn_env 0%nat
       = (tr, Raise (AssertionError assert_message)) /\
     forallb (fun a => negb (is_training_step a)) tr = true /\
     fit_calls tr = []) /\
  ((1 < world_size demo_fp16_args -> device_count demo_env <> 0) /\
   cudnn_enabled demo_env = true /\
   exists tr,
     main (M := unit) demo_fp16_args demo_env 0%nat = (tr, Ok (tt, 9%nat)) /\
     stage_steps tr = expected_stages demo_fp16_args 0%nat /\
     length (fit_calls tr) = 3%nat).
Proof.
  assert (Hd : forall env : Env nat,
             1 < world_size demo_fp16_args -> device_count env <> 0).
  { intros env H. vm_compute in H. discriminate H. }
  split.
  - split; [exact (Hd _)|]. split; [reflexivity|]. split; [reflexivity|].
    exact (proj1 (C7_fp16_needs_cudnn (M := unit) demo_fp16_args
                    demo_no_cudnn_env 0%nat (Hd _) eq_refl) eq_refl).
  - split; [exact (Hd _)|]. split; [reflexivity|].
    exact (proj2 (C7_fp16_needs_cudnn (M := unit) demo_fp16_args
                    demo_env 0%nat (Hd _) eq_refl) eq_refl).
Defined.

(** C9. The sink exists only on rank 0 with a save directory configured:
    exactly then [save_args] makes the log directory and returns the
    best/cycle save names and one ImagenetLoggingCallback, which [fit]
    passes on to [learner.fit]; otherwise it returns an empty dictionary,
    so [fit] passes no callbacks and no save names. The callback opens
    its log in append mode with line buffering; whatever hooks the
    framework fires after [on_train_begin], if they return, nothing is left
    unflushed and the file holds what it held before followed by exactly
    the records of [written]: one record per logging hook, each starting
    with the clock reading of that hook, in the order of the hooks, and
    each ended by a line end, so that the file ends with a whole line. When
    the file held whole lines before and neither a clock reading nor a
    printed metric spans several lines, the lines of the file are the
    lines it had followed by one line per record, each keyed by its
    timestamp. *)
Theorem C9_sink_on_rank0_and_log_keyed_by_timestamp
    {A M : Type} (fmt : M -> string) (args : Args) (name dir : string) (n : nat)
    (lr : Q) (cl : Z) (sampler : option Sampler) (wds : Q) (clr : pyval)
    (path : string) (every : Z) (fs : FileSystem) (now : string)
    (hs : list (hook M * string)) (w' : World M) :
  (sink_active args = true <-> rank args = 0 /\ save_dir args <> EmptyString) /\
  save_args (A := A) (M := M) args name dir n =
    (if sink_active args then [MakeDirs (dir +:+ "/training_logs")] else [],
     Ok (if sink_active args
         then sink_kwargs name (dir +:+ "/training_logs") else ∅, n)) /\
  sink_kwargs (M := M) name (dir +:+ "/training_logs") !! "callbacks"
    = Some (SaCallbacks
              [__init__ ((dir +:+ "/training_logs") +:+ "/" +:+ name +:+ "_log.txt")
                 50]) /\
  sink_kwargs (M := M) name (dir +:+ "/training_logs") !! "best_save_name"
    = Some (SaStr (name +:+ "_best_model")) /\
  sink_kwargs (M := M) name (dir +:+ "/training_logs") !! "cycle_save_name"
    = Some (SaStr name) /\
  (exists tr,
     fit (A := A) (M := M) args name lr cl sampler wds clr n = (tr, Ok (tt, n)) /\
     map fc_sargs (fit_calls tr) = [kwargs_for args name]) /\
  (sink_active args = false ->
     forall key, kwargs_for (M := M) args name !! key = None) /\
  (fire_all fmt ((OnTrainBegin, now) :: hs) (__init__ path every, fs) = Ok w' ->
   exists file,
     f w'.1 = Some file /\ f_path file = path /\ f_mode file = "a" /\
     f_buffering file = 1 /\ f_pending file = EmptyString /\
     fs_files w'.2 !! path
       = Some (contents fs path
               +:+ records_text
                     (written fmt every no_counts ((OnTrainBegin, now) :: hs))) /\
     map fst (written fmt every no_counts ((OnTrainBegin, now) :: hs))
       `sublist_of` now :: map snd hs /\
     whole_lines (contents w'.2 path) = true /\
     (whole_lines (contents fs path) = true ->
      Forall (fun t => has_line_end t = false) (now :: map snd hs) ->
      (forall m, has_line_end (fmt m) = false) ->
      lines (contents w'.2 path)
        = lines (contents fs path)
          ++ map keyed_line
               (written fmt every no_counts ((OnTrainBegin, now) :: hs)))).
Proof.
  split; [apply sink_active_iff|].
  split; [apply save_args_guard|].
  split; [reflexivity|]. split; [reflexivity|]. split; [reflexivity|].
  split.
  { destruct (fit_passes_kwargs (A := A) (M := M) args name lr cl sampler wds clr n)
      as (tr & Hrun & Hkw & _).
    by exists tr. }
  split.
  { intros Hoff key. unfold kwargs_for. rewrite Hoff. apply lookup_empty. }
  intros Hall.
  destruct (session_written fmt path every now fs hs w' Hall)
    as (Hp & Hfs & file & Hf & Hfp & Hfm & Hfb & Hpend).
  exists file. repeat (split; [assumption|]). split.
  { exact (written_stamps fmt every ((OnTrainBegin, now) :: hs) no_counts). }
  split.
  { unfold contents at 1. rewrite Hfs. unfold whole_lines.
    rewrite ends_nl_app by (by apply records_text_not_empty).
    rewrite records_text_whole by done. apply orb_true_r. }
  intros Hold Hstamps Hfmt. unfold contents at 1. rewrite Hfs.
  rewrite lines_app by exact Hold. f_equal.
  apply lines_records.
  exact (written_one_line fmt every ((OnTrainBegin, now) :: hs) no_counts Hfmt Hstamps).
Qed.

Lemma C9_sink_witness :
  (fire_all pretty ((OnTrainBegin, "2018-05-01T10:00:00"%string) :: demo_hooks)
     (__init__ "logs/1_log.txt" 2, demo_fs) = Ok demo_world /\
   exists file,
     f demo_world.1 = Some file /\ f_mode file = "a" /\ f_buffering file = 1 /\
     f_pending file = EmptyString /\
     lines (contents demo_world.2 "logs/1_log.txt")
       = map keyed_line
           [("2018-05-01T10:00:00", tab +:+ "on_train_begin");
            ("2018-05-01T10:00:02", "Epoch: 0 Batch: 2 Metrics: 6");
            ("2018-05-01T10:00:03",
             tab +:+ "Epoch:0" +:+ tab +:+ "trn_loss:6" +:+ tab +:+ "val_loss:5"
             +:+ tab +:+ "acc:90" +:+ tab +:+ "top5:99");
            ("2018-05-01T10:00:04", tab +:+ "on_train_end")]) /\
  (sink_active demo_rank1_args = false /\
   forall key, kwargs_for (M := nat) demo_rank1_args "1" !! key = None).
Proof.
  assert (H : fire_all pretty
                ((OnTrainBegin, "2018-05-01T10:00:00"%string) :: demo_hooks)
                (__init__ "logs/1_log.txt" 2, demo_fs) = Ok demo_world)
    by (vm_compute; reflexivity).
  split.
  - split; [exact H|].
    destruct (proj2 (proj2 (proj2 (proj2 (proj2 (proj2 (proj2
      (C9_sink_on_rank0_and_log_keyed_by_timestamp (A := nat) pretty demo_args "1"
         "/home/me/imagenet_training" 0%nat (3 # 100)%Q 1 None (2 # 100000)%Q
         PyNone "logs/1_log.txt" 2 demo_fs "2018-05-01T10:00:00" demo_hooks
         demo_world))))))) H)
      as (file & Hf & _ & Hfm & Hfb & Hpend & _ & _ & _ & Hlines).
    exists file.
    split; [exact Hf|]. split; [exact Hfm|]. split; [exact Hfb|].
    split; [exact Hpend|].
    exact (Hlines eq_refl ltac:(repeat constructor) pretty_nat_one_line).
  - split; [reflexivity|].
    exact (proj1 (proj2 (proj2 (proj2 (proj2 (proj2 (proj2
      (C9_sink_on_rank0_and_log_keyed_by_timestamp (A := nat) pretty
         demo_rank1_args "1" "/home/me/imagenet_training" 0%nat (3 # 100)%Q 1
         None (2 # 100000)%Q PyNone "logs/1_log.txt" 2 demo_fs
         "2018-05-01T10:00:00" demo_hooks demo_world))))))) eq_refl).
Defined.

(** * Further properties of the prefetcher *)

Section PrefetchMore.

Context {A : Type}.

#[local] Abbreviation DataPrefetcher := (DataPrefetcher A).
#[local] Abbreviation event := (event A).

Implicit Types (p q : DataPrefetcher) (tr hist : list event).

(** The cap test at the next count tells whether the room is used up. *)
Lemma cap_check_room p c n :
  cap_check p (c + 1) = Ok (Nat.eqb (cap_room (stop_after p) c (S n)) 0).
Proof.
  unfold cap_check, cap_room. destruct (stop_after p) as [|k|?|?|?]; simpl; try reflexivity.
  f_equal. destruct (Z.gtb_spec (c + 1) k).
  - replace (Z.to_nat (k - c)) with 0%nat by lia. reflexivity.
  - destruct (Z.to_nat (k - c)) eqn:E; [lia|]. reflexivity.
Qed.

Lemma cap_room_next sa c n :
  cap_room sa c (S n) <> 0%nat ->
  cap_room sa c (S n) = S (cap_room sa (c + 1) n).
Proof.
  unfold cap_room. destruct sa as [|k|?|?|?]; try reflexivity. lia.
Qed.

Lemma cap_room_nil sa c : cap_room sa c 0 = 0%nat.
Proof. unfold cap_room. destruct sa; reflexivity. Qed.

Lemma gen_next_by_room p c n :
  gen_next p (GSuspended (c + 1)) =
    if Nat.eqb (cap_room (stop_after p) c (S n)) 0
    then (p, GDone, Stopped, []) else loop_head p (c + 1) [].
Proof.
  pose proof (cap_check_room p c n) as H.
  destruct (Nat.eqb _ 0); [by apply gen_next_capped|by apply gen_next_resume].
Qed.

(** A run from the loop test, for any [stop_after] and any number [n] of
    further pulls: what is handed out, how the loop ends, and the stream
    operations performed. *)
Lemma run_shape rest : forall p c i t sofar n,
  primed p i t rest ->
  run_items (finish_pull (consume n) (loop_head p c sofar))
    = take (S (Nat.min n (cap_room (stop_after p) c (length rest))))
        ((i, Some t) :: map to_item rest) /\
  run_finish (finish_pull (consume n) (loop_head p c sofar))
    = (if (n <=? cap_room (stop_after p) c (length rest))%nat
       then Abandoned else Returned) /\
  run_trace (finish_pull (consume n) (loop_head p c sofar))
    = sofar ++ handover_trace (stream p) i t rest
                 (Nat.min n (cap_room (stop_after p) c (length rest))).
Proof.
  induction rest as [|b rest IH]; intros p c i t sofar n Hpr;
    rewrite loop_head_sofar.
  - destruct (loop_head_last p c i t Hpr) as [-> Hd].
    cbn [finish_pull run_items run_finish run_trace length].
    rewrite cap_room_nil, Nat.min_0_r.
    destruct n as [|n]; [simpl; by rewrite app_nil_r|].
    rewrite consume_S.
    destruct (cap_check_total (set_next p None None) (c + 1)) as [[|] Hc].
    + rewrite gen_next_capped by exact Hc. simpl. by rewrite app_nil_r.
    + rewrite gen_next_resume, loop_head_drained by (exact Hc || apply Hd).
      simpl. by rewrite app_nil_r.
  - destruct (loop_head_more p c i t b rest Hpr) as (p' & -> & Hpr' & Hcfg).
    cbn [finish_pull run_items run_finish run_trace length].
    destruct Hcfg as (_ & _ & Hs & Hsa).
    destruct n as [|n]; [simpl; by rewrite app_nil_r|].
    rewrite consume_S, (gen_next_by_room p' c (length rest)), Hsa.
    destruct (cap_room (stop_after p) c (S (length rest))) as [|room] eqn:Hroom.
    + simpl. by rewrite app_nil_r.
    + assert (Hnext : room = cap_room (stop_after p) (c + 1) (length rest)).
      { pose proof (cap_room_next (stop_after p) c (length rest)) as H.
        rewrite Hroom in H. specialize (H ltac:(discriminate)). by injection H. }
      cbn [Nat.eqb].
      destruct (IH p' (c + 1) (cuda b.1) (cuda b.2) [] n Hpr') as (Hit & Hfin & Htr).
      rewrite Hsa, <- Hnext in Hit, Hfin, Htr. rewrite Hs in Htr.
      cbn [finish_pull] in *.
      rewrite Hit, Hfin, Htr. repeat split. by rewrite <- app_assoc.
Qed.

Lemma cap_room_le sa c n : (cap_room sa c n <= n)%nat.
Proof. unfold cap_room. destruct sa; lia. Qed.

Lemma cap_limit_nil sa : cap_limit sa 0 = 0%nat.
Proof. unfold cap_limit. destruct sa; reflexivity. Qed.

Lemma cap_limit_S sa n : cap_limit sa (S n) = S (cap_room sa 0 n).
Proof. unfold cap_limit, cap_room. destruct sa as [|k|?|?|?]; lia. Qed.

Lemma issued_of_app tr1 tr2 : issued_of (tr1 ++ tr2) = issued_of tr1 ++ issued_of tr2.
Proof. apply omap_app. Qed.

Lemma handover_issued s (rest : list (Batch A)) : forall i t more,
  issued_of (handover_trace s i t rest more) = take (S more) (map to_device rest).
Proof.
  induction rest as [|b rest IH]; intros i t more; [reflexivity|].
  destruct more as [|more]; [reflexivity|].
  unfold issued_of in *. simpl. rewrite IH. reflexivity.
Qed.

Lemma handover_waits s (rest : list (Batch A)) : forall (i t : Tensor A) more,
  (more <= length rest)%nat ->
  count_if is_wait (handover_trace s i t rest more) = S more.
Proof.
  induction rest as [|b rest IH]; intros i t more Hle.
  - simpl in Hle. by replace more with 0%nat by lia.
  - destruct more as [|more]; [reflexivity|].
    cbn [handover_trace count_if is_wait]. rewrite IH by (simpl in Hle; lia).
    reflexivity.
Qed.

(** A whole [for] loop of [pulls] pulls over a prefetcher in any state. *)
Lemma iterate_shape p pulls :
  run_items (iterate pulls p)
    = take (Nat.min pulls (cap_limit (stop_after p) (length (ld_batches (loader p)))))
        (map to_item (ld_batches (loader p))) /\
  run_finish (iterate pulls p)
    = (if (pulls <=? cap_limit (stop_after p) (length (ld_batches (loader p))))%nat
       then Abandoned else Returned) /\
  issued_of (run_trace (iterate pulls p))
    = match pulls with
      | O => []
      | S _ => take (S (length (run_items (iterate pulls p))))
                 (map to_device (ld_batches (loader p)))
      end /\
  count_if is_wait (run_trace (iterate pulls p)) = length (run_items (iterate pulls p)).
Proof.
  unfold iterate. destruct pulls as [|n]; [by rewrite take_0|].
  rewrite consume_S.
  destruct (ld_batches (loader p)) as [|b rest] eqn:Hb.
  - rewrite gen_next_new_empty by exact Hb.
    cbn [length]. rewrite cap_limit_nil. simpl. repeat split.
  - destruct (gen_next_new_more p b rest Hb) as (p1 & -> & Hpr & Hcfg).
    destruct Hcfg as (_ & _ & Hs & Hsa).
    destruct (run_shape rest p1 0 _ _
                [CopyIssue (stream p) (cuda b.1) (cuda b.2)] n Hpr)
      as (Hit & Hfin & Htr).
    rewrite Hsa in Hit, Hfin, Htr. rewrite Hs in Htr.
    pose proof (cap_room_le (stop_after p) 0 (length rest)) as Hle.
    set (room := cap_room (stop_after p) 0 (length rest)) in *.
    cbn [length]. rewrite cap_limit_S. fold room.
    rewrite Hit, Hfin, Htr.
    rewrite !length_take. cbn [length]. rewrite !length_map.
    replace (S (n `min` room) `min` S (length rest))%nat
      with (S (n `min` room)) by lia.
    repeat split.
    + rewrite issued_of_app, handover_issued. reflexivity.
    + rewrite count_if_app, handover_waits by lia. reflexivity.
Qed.

(** A new generator looks only at what [__init__] fixed. *)
Lemma gen_next_new_config p q :
  same_config p q -> gen_next p GNew = gen_next q GNew.
Proof.
  intros (Hl & Hd & Hs & Hsa). destruct p, q. simpl in *. subst.
  unfold gen_next, preload, loader_iter. simpl.
  destruct (ld_batches _) as [|[i t] rest]; reflexivity.
Qed.

Lemma iterate_config p q pulls :
  same_config p q ->
  run_items (iterate pulls q) = run_items (iterate pulls p) /\
  run_trace (iterate pulls q) = run_trace (iterate pulls p) /\
  run_finish (iterate pulls q) = run_finish (iterate pulls p) /\
  run_gen (iterate pulls q) = run_gen (iterate pulls p).
Proof.
  intros Hcfg. unfold iterate. destruct pulls as [|n]; [by repeat split|].
  rewrite !consume_S, (gen_next_new_config p q Hcfg). by repeat split.
Qed.

Lemma to_item_on_device (b : Batch A) : on_device (to_item b).
Proof. split; [reflexivity|]. by eexists. Qed.

End PrefetchMore.

(** X1. For a prefetcher in any state, any [stop_after] and any number of
    pulls, the items handed out are the first source batches, in order,
    as many as the pulls and the cap allow: an int cap [k] lets
    [max 1 (k + 1)] batches through, anything else lets all through. The
    loop is left by the consumer when its pulls are used up by items, and
    otherwise ends with the generator returning. *)
Theorem X1_items_are_leading_source_batches
    {A : Type} (p : DataPrefetcher A) (pulls : nat) :
  run_items (iterate pulls p)
    = take (Nat.min pulls
              (cap_limit (stop_after p) (length (ld_batches (loader p)))))
        (map to_item (ld_batches (loader p))) /\
  run_finish (iterate pulls p)
    = (if (pulls <=? cap_limit (stop_after p)
                       (length (ld_batches (loader p))))%nat
       then Abandoned else Returned).
Proof.
  destruct (iterate_shape p pulls) as (Hit & Hfin & _). by split.
Qed.

(** X2. In any iteration the copies are issued in source order, each
    source batch at most once, and exactly one batch ahead of the
    hand-overs: once the generator has been started, the batches copied
    are those handed out plus the next one of the source, if there is
    one. There is one wait per hand-over. So a capped or abandoned
    iteration has pulled and copied one batch that nobody receives. *)
Theorem X2_copies_run_one_batch_ahead
    {A : Type} (p : DataPrefetcher A) (pulls : nat) :
  issued_of (run_trace (iterate pulls p))
    = match pulls with
      | O => []
      | S _ => take (S (length (run_items (iterate pulls p))))
                 (map to_device (ld_batches (loader p)))
      end /\
  count_if is_wait (run_trace (iterate pulls p))
    = length (run_items (iterate pulls p)).
Proof.
  destruct (iterate_shape p pulls) as (_ & _ & Hiss & Hw). by split.
Qed.

(** X3. Whatever an earlier iteration of a prefetcher did, and however far
    it got, a new iteration of the same object hands out the same items,
    performs the same stream operations and ends the same way as an
    iteration of a newly built prefetcher: nothing of the earlier
    iteration leaks into the next. *)
Theorem X3_new_iteration_ignores_earlier_one
    {A : Type} (l : DataLoader A) (s : nat) (sa : pyval) (earlier pulls : nat) :
  run_items (iterate pulls (run_obj (iterate earlier (Prefetch.__init__ l s sa))))
    = run_items (iterate pulls (Prefetch.__init__ l s sa)) /\
  run_trace (iterate pulls (run_obj (iterate earlier (Prefetch.__init__ l s sa))))
    = run_trace (iterate pulls (Prefetch.__init__ l s sa)) /\
  run_finish (iterate pulls (run_obj (iterate earlier (Prefetch.__init__ l s sa))))
    = run_finish (iterate pulls (Prefetch.__init__ l s sa)) /\
  run_gen (iterate pulls (run_obj (iterate earlier (Prefetch.__init__ l s sa))))
    = run_gen (iterate pulls (Prefetch.__init__ l s sa)).
Proof.
  apply iterate_config. apply consume_config.
Qed.

(** X4. An int cap cannot make the iteration hand out nothing: with
    [stop_after <= 0] (zero or negative) and a source that is not empty,
    exactly the first batch is handed out, and the generator returns at
    the next pull. *)
Theorem X4_nonpositive_cap_hands_out_one
    {A : Type} (l : DataLoader A) (s : nat) (k : Z) (pulls : nat)
    (b : Batch A) (rest : list (Batch A)) :
  k <= 0 ->
  ld_batches l = b :: rest ->
  run_items (iterate (S pulls) (Prefetch.__init__ l s (PyInt k))) = [to_item b] /\
  run_finish (iterate (S (S pulls)) (Prefetch.__init__ l s (PyInt k))) = Returned.
Proof.
  intros Hk Hb.
  destruct (iterate_shape (Prefetch.__init__ l s (PyInt k)) (S pulls)) as (Hit & _).
  destruct (iterate_shape (Prefetch.__init__ l s (PyInt k)) (S (S pulls))) as (_ & Hfin & _).
  rewrite Hit, Hfin. cbn [stop_after loader Prefetch.__init__ cap_limit]. rewrite Hb.
  cbn [length].
  replace (Z.to_nat (Z.max 1 (k + 1))) with 1%nat by lia.
  replace (S (length rest) `min` 1)%nat with 1%nat by lia.
  replace (S pulls `min` 1)%nat with 1%nat by lia.
  split; reflexivity.
Qed.

Lemma X4_nonpositive_cap_witness :
  (-3 <= 0 /\ ld_batches (demo_loader 3) = demo_batch 0 :: map demo_batch [1; 2]%nat) /\
  run_items (iterate 4 (Prefetch.__init__ (demo_loader 3) 0 (PyInt (-3))))
    = [to_item (demo_batch 0)].
Proof.
  assert (Hk : -3 <= 0) by lia.
  assert (Hb : ld_batches (demo_loader 3)
               = demo_batch 0 :: map demo_batch [1; 2]%nat) by reflexivity.
  split; [by split|].
  exact (proj1 (X4_nonpositive_cap_hands_out_one (demo_loader 3) 0 (-3) 3
                  (demo_batch 0) (map demo_batch [1; 2]%nat) Hk Hb)).
Defined.

(** X5. Every item an iteration hands out, in any state of the prefetcher
    and under any [stop_after], has its input and its target on the
    device; the target is never [None]. *)
Theorem X5_items_are_on_device
    {A : Type} (p : DataPrefetcher A) (pulls : nat) :
  Forall on_device (run_items (iterate pulls p)).
Proof.
  destruct (iterate_shape p pulls) as (-> & _).
  apply Forall_take, Forall_forall. intros it Hin.
  apply list_elem_of_fmap in Hin as (b & -> & _). apply to_item_on_device.
Qed.

(** * Further properties of the logging callback *)

Section SinkMore.

Context {M : Type} (fmt : M -> string).

#[local] Abbreviation World := (World M).

Lemma div_step (b e : Z) :
  0 < e -> (b + 1) / e - b / e = if (b + 1) mod e =? 0 then 1 else 0.
Proof.
  intros He.
  pose proof (Z.div_mod b e ltac:(lia)) as H1.
  pose proof (Z.mod_pos_bound b e He) as H2.
  pose proof (Z.div_mod (b + 1) e ltac:(lia)) as H3.
  pose proof (Z.mod_pos_bound (b + 1) e He) as H4.
  destruct (Z.eqb_spec ((b + 1) mod e) 0) as [H0|H0]; nia.
Qed.

(** Writing a record to the open log cannot fail. *)
Lemma log_in_run every b e now text (w : World) :
  in_run every b e w ->
  exists w',
    log now text w = Ok w' /\
    in_run every b e w' /\ last_loss w'.1 = last_loss w.1.
Proof.
  intros (Hev & Hb & He & file & Hf & Hopen).
  unfold log. rewrite Hf. unfold file_write, flush. rewrite Hopen.
  destruct (_ && _); eexists; (split; [reflexivity|]); cbn;
    (split; [|reflexivity]);
    (split; [exact Hev|split; [exact Hb|split; [exact He|eexists; split; reflexivity]]]).
Qed.

Lemma batch_end_in_run every b e now m (w : World) :
  0 < every -> in_run every b e w ->
  exists w',
    on_batch_end fmt now m w = Ok w' /\
    in_run every (b + 1) e w' /\ last_loss w'.1 = Some m.
Proof.
  intros Hev Hrun.
  set (w1 := (set_counters (set_last_loss w.1 m) (Some (b + 1)) (Some e), w.2) : World).
  assert (Hrun1 : in_run every (b + 1) e w1).
  { destruct Hrun as (Hpe & Hb & He & file & Hf & Hopen).
    split; [exact Hpe|]. split; [reflexivity|]. split; [reflexivity|]. by exists file. }
  destruct Hrun as (Hpe & Hb & He & _).
  unfold on_batch_end. cbn [fst snd set_last_loss batch epoch print_every set_counters].
  rewrite Hb, Hpe.
  destruct (Z.eqb_spec every 0) as [|_]; [lia|].
  destruct ((b + 1) mod every =? 0).
  - rewrite He.
    destruct (log_in_run every (b + 1) e now
                ("Epoch: " +:+ pretty e +:+ " Batch: " +:+ pretty (b + 1)
                 +:+ " Metrics: " +:+ fmt m) w1 Hrun1)
      as (w' & Hlog & Hrun' & Hl').
    exists w'. split; [exact Hlog|]. split; [exact Hrun'|].
    rewrite Hl'. reflexivity.
  - exists w1. split; [by rewrite He|]. split; [exact Hrun1|reflexivity].
Qed.

Lemma epoch_end_in_run every b e now ms loss (w : World) :
  in_run every b e w -> last_loss w.1 = Some loss ->
  exists w',
    on_epoch_end fmt now ms w = Ok w' /\
    in_run every b (e + 1) w' /\ last_loss w'.1 = Some loss.
Proof.
  intros Hrun Hl.
  unfold on_epoch_end.
  destruct Hrun as (Hpe & Hb & He & Hfile). rewrite He, Hl.
  destruct (log_in_run every b e now
              (tab +:+ "Epoch:" +:+ pretty e +:+ tab +:+ "trn_loss:" +:+ fmt loss
               +:+ zip_fields fmt ["val_loss"; "acc"; "top5"; EmptyString] ms)
              w (conj Hpe (conj Hb (conj He Hfile))))
    as ([cb fs] & Hlog & Hrun' & Hl').
  rewrite Hlog. eexists. split; [reflexivity|].
  destruct Hrun' as (Hpe' & Hb' & He' & file' & Hf' & Hopen').
  cbn [fst snd] in *.
  split.
  - split; [exact Hpe'|]. split; [exact Hb'|]. split; [reflexivity|]. by exists file'.
  - cbn. congruence.
Qed.

(** Batch ends and epoch ends after a first batch end. *)
Lemma steps_in_run every hs : forall b e loss (w : World),
  0 < every ->
  forallb (fun x : hook M * string => is_batch_end x.1 || is_epoch_end x.1) hs = true ->
  in_run every b e w ->
  last_loss w.1 = Some loss ->
  exists w',
    fire_all fmt hs w = Ok w' /\
    in_run every (b + count_hooks is_batch_end hs)
                 (e + count_hooks is_epoch_end hs) w'.
Proof.
  induction hs as [|[h now] hs IH]; intros b e loss w Hev Hall Hrun Hl.
  - exists w. cbn [fire_all count_hooks].
    rewrite !Z.add_0_r. split; [reflexivity|exact Hrun].
  - cbn [forallb fst] in Hall. apply andb_true_iff in Hall as [Hh Hall].
    destruct h as [|m|ms|]; try discriminate Hh.
    + destruct (batch_end_in_run every b e now m w Hev Hrun)
        as (w1 & Hfire & Hrun1 & Hl1).
      destruct (IH _ _ _ w1 Hev Hall Hrun1 Hl1) as (w' & Hrest & Hrun').
      exists w'. cbn [fire_all fire]. rewrite Hfire.
      split; [exact Hrest|].
      cbn [count_hooks is_batch_end is_epoch_end].
      replace (b + (1 + count_hooks is_batch_end hs))
        with (b + 1 + count_hooks is_batch_end hs) by lia.
      rewrite Z.add_0_l. exact Hrun'.
    + destruct (epoch_end_in_run every b e now ms loss w Hrun Hl)
        as (w1 & Hfire & Hrun1 & Hl1).
      destruct (IH _ _ _ w1 Hev Hall Hrun1 Hl1) as (w' & Hrest & Hrun').
      exists w'. cbn [fire_all fire]. rewrite Hfire.
      split; [exact Hrest|].
      cbn [count_hooks is_batch_end is_epoch_end].
      replace (e + (1 + count_hooks is_epoch_end hs))
        with (e + 1 + count_hooks is_epoch_end hs) by lia.
      rewrite Z.add_0_l. exact Hrun'.
Qed.

Lemma fire_all_app hs1 hs2 (w : World) :
  fire_all fmt (hs1 ++ hs2) w =
    match fire_all fmt hs1 w with
    | Ok w' => fire_all fmt hs2 w'
    | Raise e => Raise e
    end.
Proof.
  revert w. induction hs1 as [|[h now] hs1 IH]; intros w; [reflexivity|].
  cbn [app fire_all]. destruct (fire fmt h now w); [apply IH|reflexivity].
Qed.

(** [on_train_begin] on a new callback does what [open] does. *)
Lemma train_begin_opens path every now (fs : FileSystem) :
  match can_open fs path with
  | Ok _ =>
      exists w' : World,
        on_train_begin now (__init__ path every, fs) = Ok w' /\ in_run every 0 0 w' /\
        last_loss w'.1 = None
  | Raise e => on_train_begin (M := M) now (__init__ path every, fs) = Raise e
  end.
Proof.
  unfold on_train_begin, py_open, log, file_write, flush.
  cbn [String.eqb Ascii.eqb Bool.eqb fst snd set_counters save_path __init__].
  destruct (can_open fs path) as [[]|e]; [|reflexivity].
  cbn [fst snd f set_f f_closed f_buffering Z.eqb Pos.eqb andb].
  rewrite log_record_has_line_end.
  eexists. split; [reflexivity|]. cbn.
  split; [|reflexivity].
  split; [reflexivity|split; [reflexivity|split; [reflexivity|eexists; split; reflexivity]]].
Qed.

Lemma train_end_in_run every b e now (w : World) :
  in_run every b e w ->
  exists w' file,
    on_train_end now w = Ok w' /\
    f w'.1 = Some file /\ f_closed file = true /\ f_pending file = EmptyString /\
    batch w'.1 = Some b /\ epoch w'.1 = Some e.
Proof.
  intros Hrun. unfold on_train_end.
  destruct (log_in_run every b e now (tab +:+ "on_train_end") w Hrun)
    as ([cb fs] & Hlog & Hrun' & _).
  rewrite Hlog.
  destruct Hrun' as (_ & Hb & He & file & Hf & _).
  cbn [fst snd] in *. rewrite Hf. unfold file_close, flush.
  eexists _, _. split; [reflexivity|]. cbn [fst snd set_f f batch epoch].
  repeat split; assumption.
Qed.

(** A whole run of the callback, as the framework drives it, returns. *)
Lemma session_runs path every (fs : FileSystem) t0 t1 hs :
  0 < every -> orderly hs = true -> can_open fs path = Ok tt ->
  exists w' file,
    fire_all fmt (session t0 hs t1) (__init__ path every, fs) = Ok w' /\
    batch w'.1 = Some (count_hooks is_batch_end hs) /\
    epoch w'.1 = Some (count_hooks is_epoch_end hs) /\
    f w'.1 = Some file /\ f_closed file = true /\ f_pending file = EmptyString.
Proof.
  intros Hev Hord Hopen.
  pose proof (train_begin_opens path every t0 fs) as Hbegin. rewrite Hopen in Hbegin.
  destruct Hbegin as (w0 & Hbegin & Hrun0 & _).
  unfold session. cbn [fire_all fire]. rewrite Hbegin, fire_all_app.
  destruct hs as [|[h now] hs].
  - cbn [fire_all fire count_hooks].
    destruct (train_end_in_run _ _ _ t1 w0 Hrun0)
      as (w' & file & -> & Hf & Hc & Hp & Hb & He).
    by exists w', file.
  - cbn [orderly] in Hord. apply andb_true_iff in Hord as [Hh Hall].
    destruct h as [|m|ms|]; try discriminate Hh.
    destruct (batch_end_in_run every 0 0 now m w0 Hev Hrun0)
      as (w1 & Hfire & Hrun1 & Hl1).
    destruct (steps_in_run every hs _ _ m w1 Hev Hall Hrun1 Hl1)
      as (w2 & Hrest & Hrun2).
    cbn [fire_all fire]. rewrite Hfire, Hrest.
    destruct (train_end_in_run _ _ _ t1 w2 Hrun2)
      as (w' & file & -> & Hf & Hc & Hp & Hb & He).
    exists w', file. split; [reflexivity|].
    cbn [count_hooks is_batch_end is_epoch_end].
    rewrite Hb, He. split; [f_equal; lia|]. split; [f_equal; lia|]. by repeat split.
Qed.

(** How many records batch ends and epoch ends followed by the end of
    training are to leave, once there is a loss to report. *)
Lemma written_steps_length every t1 hs : forall (c : Counters M),
  0 < every ->
  forallb (fun x : hook M * string => is_batch_end x.1 || is_epoch_end x.1) hs = true ->
  n_loss c <> None ->
  Z.of_nat (length (written fmt every c (hs ++ [(OnTrainEnd, t1)])))
    = 1 + count_hooks is_epoch_end hs
      + ((n_batch c + count_hooks is_batch_end hs) / every - n_batch c / every).
Proof.
  induction hs as [|[h now] hs IH]; intros c Hev Hall Hl.
  - cbn [app written hook_records length count_hooks]. rewrite !Z.add_0_r. lia.
  - cbn [forallb fst] in Hall. apply andb_true_iff in Hall as [Hh Hall].
    cbn [app written]. rewrite length_app, Nat2Z.inj_add.
    destruct h as [|m|ms|]; try discriminate Hh.
    + rewrite IH by (try done). cbn [hook_next hook_records n_batch].
      cbn [count_hooks is_batch_end is_epoch_end].
      pose proof (div_step (n_batch c) every Hev) as Hd.
      replace (n_batch c + (1 + count_hooks is_batch_end hs))
        with (n_batch c + 1 + count_hooks is_batch_end hs) by lia.
      destruct ((n_batch c + 1) mod every =? 0); cbn [length]; lia.
    + rewrite IH by (try done). cbn [hook_next hook_records n_batch n_loss].
      cbn [count_hooks is_batch_end is_epoch_end]. rewrite Z.add_0_l.
      destruct (n_loss c); [|done]. cbn [length]. lia.
Qed.

(** One record for the begin, one for the end, one per epoch end and one
    per [every] batch ends. *)
Lemma session_length every t0 t1 hs :
  0 < every -> orderly hs = true ->
  Z.of_nat (length (written fmt every no_counts (session t0 hs t1)))
    = 2 + count_hooks is_epoch_end hs + count_hooks is_batch_end hs / every.
Proof.
  intros Hev Hord. unfold session. cbn [written hook_records hook_next app length].
  rewrite Nat2Z.inj_succ.
  destruct hs as [|[h now] hs].
  - cbn. rewrite Z.div_0_l by lia. reflexivity.
  - cbn [orderly] in Hord. apply andb_true_iff in Hord as [Hh Hall].
    destruct h as [|m|ms|]; try discriminate Hh.
    cbn [app written]. rewrite length_app, Nat2Z.inj_add.
    rewrite written_steps_length by (try done).
    cbn [hook_next hook_records n_batch n_loss count_hooks is_batch_end is_epoch_end].
    pose proof (div_step 0 every Hev) as Hd. rewrite Z.div_0_l in Hd by lia.
    change (0 + 1) with 1 in *.
    destruct (1 mod every =? 0); cbn [length]; lia.
Qed.

(** Only the first four metrics reach the epoch record. *)
Lemma zip_fields_take names : forall (ms : list M),
  zip_fields fmt names ms = zip_fields fmt names (take (length names) ms).
Proof.
  induction names as [|k names IH]; intros ms; [by destruct ms|].
  destruct ms as [|v ms]; [reflexivity|].
  cbn [zip_fields length take]. by rewrite <- IH.
Qed.

End SinkMore.

(** * Further properties of the driver *)

Section DriverMore.

Context {A M : Type}.

Implicit Types (args : Args) (env : Env A).

(** A run of [main] whose start-up goes through: its set-up, the streams
    of its prefetchers and the directories it makes. *)
Lemma main_views args env n :
  startup_ok args env ->
  exists tr,
    main (M := M) args env n = (tr, Ok (tt, (9 + n)%nat)) /\
    setup_steps tr = expected_setup args env /\
    bound_streams tr = seq n 9 /\
    made_dirs tr = expected_dirs args.
Proof.
  intros [Hd Hf].
  unfold main, fit, save_args, expected_setup, expected_dirs, sink_active.
  cbv zeta.
  assert (Hdc : (1 <? world_size args) = true -> (device_count env =? 0) = false).
  { intros H. apply Z.eqb_neq, Hd. by apply Z.ltb_lt. }
  rewrite Z.gtb_ltb in *.
  destruct (negb (rank args =? 0) || str_is_empty (save_dir args)) eqn:Hs;
    (destruct (1 <? world_size args) eqn:Hw; [specialize (Hdc eq_refl)|]);
    (destruct (fp16 args) eqn:Hfp; [pose proof (Hf eq_refl) as Hc|]).
  all: eval_script; rewrite ?Hs, ?Hdc, ?Hfp, ?Hc;
       eval_script; rewrite ?Hs, ?Hdc, ?Hfp, ?Hc; eval_script.
  all: eexists; split; [reflexivity|].
  all: repeat split; reflexivity.
Qed.

Lemma main_no_device args env n :
  1 < world_size args -> device_count env = 0 ->
  main (M := M) args env n = ([], Raise ZeroDivisionError).
Proof.
  intros Hw Hdc. unfold main. cbv zeta.
  apply Z.ltb_lt in Hw. rewrite Z.gtb_ltb in *.
  eval_script. rewrite Hw, Hdc. reflexivity.
Qed.

Lemma torch_loader_unset args env path size bs ms n :
  distributed args = None ->
  torch_loader (M := M) args env path size bs ms n
    = ([CallTorchLoader path size bs], Raise (AttributeError "distributed")).
Proof. intros H. unfold torch_loader, bind, attr. rewrite H. reflexivity. Qed.

(** What [torch_loader] builds once [main] has assigned
    [args.distributed]. *)
Lemma torch_loader_built args env path size bs n d :
  distributed args = Some d ->
  exists data pa,
    torch_loader (M := M) args env path size bs default_min_scale n
      = ([CallTorchLoader path size bs],
         Ok ((data,
              if d
              then Some (DistributedSampler
                           (mkImageFolder (path_join path "train")
                              (train_tfms size default_min_scale)))
              else None), (3 + n)%nat)) /\
    ld_sampler (Prefetch.loader (trn_dl data))
      = (if d
         then Some (DistributedSampler
                      (mkImageFolder (path_join path "train")
                         (train_tfms size default_min_scale)))
         else None) /\
    md_path data = path /\ aug_dl data = Some pa /\
    map Prefetch.stream [trn_dl data; val_dl data; pa] = [n; S n; S (S n)] /\
    Forall (fun p => Prefetch.stop_after p = PyNone /\
                     Prefetch.loaditer p = None /\
                     Prefetch.next_input p = None /\
                     ld_num_workers (Prefetch.loader p) = workers args /\
                     (ld_shuffle (Prefetch.loader p) = true ->
                      ld_sampler (Prefetch.loader p) = None))
      [trn_dl data; val_dl data; pa] /\
    ld_shuffle (Prefetch.loader (trn_dl data)) = negb d /\
    map (fun p => ld_batch_size (Prefetch.loader p)) [trn_dl data; val_dl data; pa]
      = [bs; bs * 2; bs] /\
    map (fun p => ld_shuffle (Prefetch.loader p)) [val_dl data; pa]
      = [false; false] /\
    map (fun p => ld_sampler (Prefetch.loader p)) [val_dl data; pa]
      = [None; None] /\
    map Prefetch.dataset [trn_dl data; val_dl data; pa]
      = [mkImageFolder (path_join path "train") (train_tfms size default_min_scale);
         mkImageFolder (path_join path "val") (val_tfms size);
         mkImageFolder (path_join path "val") (train_tfms size default_min_scale)].
Proof.
  intros Hd. unfold torch_loader, bind, attr. rewrite Hd.
  destruct d; cbn -[path_join Z.mul]; eexists _, _;
    (split; [reflexivity|]); cbn -[path_join Z.mul];
    repeat split; repeat constructor; try discriminate; try reflexivity; auto.
Qed.

End DriverMore.

(** ** More about the logging callback *)

(** X6. A run of the callback as the framework drives it
    ([on_train_begin], then batch ends and epoch ends beginning with a
    batch end, then [on_train_end]) with [print_every > 0], on a path that
    can be opened, never raises. At its end the log file is closed with
    nothing left unflushed; the batch counter holds the number of batch
    ends (it is not reset at an epoch end) and the epoch counter the
    number of epoch ends; the file holds what it held before followed by
    exactly the records of [written], which are one for the begin, one
    for the end, one per epoch end and one per [print_every] batches; and
    when no clock reading or printed metric spans several lines, that is
    the number of lines the log has gained. *)
Theorem X6_orderly_run_succeeds_and_counts_records
    {M : Type} (fmt : M -> string) (path : string) (every : Z)
    (fs : FileSystem) (t0 t1 : string) (hs : list (hook M * string)) :
  0 < every -> orderly hs = true -> can_open fs path = Ok tt ->
  exists w' file,
    fire_all fmt (session t0 hs t1) (__init__ path every, fs) = Ok w' /\
    batch w'.1 = Some (count_hooks is_batch_end hs) /\
    epoch w'.1 = Some (count_hooks is_epoch_end hs) /\
    f w'.1 = Some file /\ f_closed file = true /\ f_pending file = EmptyString /\
    fs_files w'.2 !! path
      = Some (contents fs path
              +:+ records_text (written fmt every no_counts (session t0 hs t1))) /\
    Z.of_nat (length (written fmt every no_counts (session t0 hs t1)))
      = 2 + count_hooks is_epoch_end hs + count_hooks is_batch_end hs / every /\
    (Forall (fun t => has_line_end t = false) (map snd (session t0 hs t1)) ->
     (forall m, has_line_end (fmt m) = false) ->
     Z.of_nat (length (lines (records_text
                                (written fmt every no_counts (session t0 hs t1)))))
       = 2 + count_hooks is_epoch_end hs + count_hooks is_batch_end hs / every).
Proof.
  intros Hev Hord Hopen.
  destruct (session_runs fmt path every fs t0 t1 hs Hev Hord Hopen)
    as (w' & file & Hrun & Hb & He & Hf & Hc & Hp).
  exists w', file. repeat (split; [assumption|]).
  destruct (session_written fmt path every t0 fs _ w' Hrun) as (_ & Hfs & _).
  split; [exact Hfs|].
  pose proof (session_length fmt every t0 t1 hs Hev Hord) as Hlen.
  split; [exact Hlen|].
  intros Hstamps Hfmt.
  rewrite (lines_records _ (written_one_line fmt every _ no_counts Hfmt Hstamps)).
  rewrite length_map. exact Hlen.
Qed.

Lemma X6_orderly_run_witness :
  (0 < 2 /\
   orderly [(OnBatchEnd 7%nat, "10:00:01"); (OnBatchEnd 6%nat, "10:00:02");
            (OnEpochEnd [5%nat], "10:00:03")] = true /\
   can_open demo_fs "logs/1_log.txt" = Ok tt) /\
  exists w' file,
    fire_all pretty
      (session "10:00:00"
         [(OnBatchEnd 7%nat, "10:00:01"); (OnBatchEnd 6%nat, "10:00:02");
          (OnEpochEnd [5%nat], "10:00:03")] "10:00:04")
      (__init__ "logs/1_log.txt" 2, demo_fs) = Ok w' /\
    batch w'.1 = Some 2 /\ epoch w'.1 = Some 1 /\
    f w'.1 = Some file /\ f_closed file = true /\ f_pending file = EmptyString /\
    fs_files w'.2 !! "logs/1_log.txt"
      = Some (records_text
                [("10:00:00", tab +:+ "on_train_begin");
                 ("10:00:02", "Epoch: 0 Batch: 2 Metrics: 6");
                 ("10:00:03", tab +:+ "Epoch:0" +:+ tab +:+ "trn_loss:6"
                              +:+ tab +:+ "val_loss:5");
                 ("10:00:04", tab +:+ "on_train_end")]) /\
    length (lines (contents w'.2 "logs/1_log.txt")) = 4%nat.
Proof.
  assert (H1 : 0 < 2) by lia.
  assert (H3 : can_open demo_fs "logs/1_log.txt" = Ok tt) by (vm_compute; reflexivity).
  split; [split; [exact H1|split; [reflexivity|exact H3]]|].
  destruct (X6_orderly_run_succeeds_and_counts_records pretty "logs/1_log.txt" 2
              demo_fs "10:00:00" "10:00:04"
              [(OnBatchEnd 7%nat, "10:00:01"); (OnBatchEnd 6%nat, "10:00:02");
               (OnEpochEnd [5%nat], "10:00:03")] H1 eq_refl H3)
    as (w' & file & Hrun & Hb & He & Hf & Hc & Hp & Hfs & _ & Hlines).
  exists w', file.
  split; [exact Hrun|]. split; [exact Hb|]. split; [exact He|].
  split; [exact Hf|]. split; [exact Hc|]. split; [exact Hp|].
  split; [exact Hfs|].
  unfold contents. rewrite Hfs. apply Nat2Z.inj.
  exact (Hlines ltac:(repeat constructor) pretty_nat_one_line).
Defined.

(** X7. Hooks out of order raise [AttributeError]: on a new callback
    every hook but [on_train_begin] fails on the first attribute it reads,
    which is not assigned yet ([batch] for a batch end, [epoch] for an
    epoch end, [f] for the end of training), and an epoch end that comes
    right after [on_train_begin], before any batch end, fails on
    [last_loss] (unless the log could not be opened, which raises the
    error of [open] first). *)
Theorem X7_hooks_out_of_order_raise
    {M : Type} (fmt : M -> string) (path : string) (every : Z)
    (fs : FileSystem) (h : hook M) (t0 now : string) (ms : list M) :
  (h <> OnTrainBegin ->
   fire fmt h now (__init__ path every, fs)
     = Raise (AttributeError
                match h with
                | OnBatchEnd _ => "batch"
                | OnEpochEnd _ => "epoch"
                | _ => "f"
                end)) /\
  fire_all fmt [(OnTrainBegin, t0); (OnEpochEnd ms, now)] (__init__ path every, fs)
    = Raise (match can_open fs path with
             | Ok _ => AttributeError "last_loss"
             | Raise e => e
             end).
Proof.
  split.
  - intros Hh. destruct h as [|m|ms'|]; [done| | |]; reflexivity.
  - cbn [fire_all fire]. unfold on_train_begin, py_open, log, file_write.
    cbn [String.eqb Ascii.eqb Bool.eqb fst snd set_counters save_path __init__].
    destruct (can_open fs path) as [[]|e]; [|reflexivity].
    cbn [fst snd f set_f set_counters __init__ save_path f_closed f_buffering
         Z.eqb Pos.eqb andb].
    rewrite log_record_has_line_end. reflexivity.
Qed.

Lemma X7_hooks_out_of_order_witness :
  OnTrainEnd <> OnTrainBegin (M := nat) /\
  fire (M := nat) pretty OnTrainEnd "10:00:00" (__init__ "logs/1_log.txt" 50, demo_fs)
    = Raise (AttributeError "f").
Proof.
  assert (H : OnTrainEnd <> OnTrainBegin (M := nat)) by discriminate.
  split; [exact H|].
  exact (proj1 (X7_hooks_out_of_order_raise (M := nat) pretty "logs/1_log.txt"
                  50 demo_fs OnTrainEnd "09:59:59" "10:00:00" []) H).
Defined.

(** X8. A callback built with [print_every = 0] fails at its first batch
    end: once [on_train_begin] has opened the log,
    [self.batch % self.print_every] raises [ZeroDivisionError] (where the
    log cannot be opened, [on_train_begin] has raised the error of [open]
    before). *)
Theorem X8_print_every_zero_raises
    {M : Type} (fmt : M -> string) (path : string)
    (fs : FileSystem) (t0 now : string) (m : M) :
  fire_all fmt [(OnTrainBegin, t0); (OnBatchEnd m, now)] (__init__ path 0, fs)
    = Raise (match can_open fs path with
             | Ok _ => ZeroDivisionError
             | Raise e => e
             end).
Proof.
  cbn [fire_all fire]. unfold on_train_begin, py_open, log, file_write.
  cbn [String.eqb Ascii.eqb Bool.eqb fst snd set_counters save_path __init__].
  destruct (can_open fs path) as [[]|e]; [|reflexivity].
  cbn [fst snd f set_f set_counters __init__ save_path f_closed f_buffering
       Z.eqb Pos.eqb andb].
  rewrite log_record_has_line_end. reflexivity.
Qed.

(** X9. The epoch record holds at most four metrics: [on_epoch_end] zips
    the metrics with four names, so metrics after the fourth are dropped
    without notice, and the fourth is written under an empty name. *)
Theorem X9_epoch_record_keeps_four_metrics
    {M : Type} (fmt : M -> string) (now : string) (ms : list M) (w : World M)
    (a b c d : M) :
  on_epoch_end fmt now ms w = on_epoch_end fmt now (take 4 ms) w /\
  zip_fields fmt ["val_loss"; "acc"; "top5"; EmptyString] [a; b; c; d]
    = tab +:+ "val_loss" +:+ ":" +:+ fmt a +:+
      tab +:+ "acc" +:+ ":" +:+ fmt b +:+
      tab +:+ "top5" +:+ ":" +:+ fmt c +:+
      tab +:+ EmptyString +:+ ":" +:+ fmt d +:+ EmptyString.
Proof.
  split; [|reflexivity].
  unfold on_epoch_end.
  rewrite (zip_fields_take fmt ["val_loss"; "acc"; "top5"; EmptyString] ms).
  reflexivity.
Qed.

(** ** More about the driver *)

(** X10. The set-up of a run whose start-up goes through: a distributed
    run ([world_size > 1]) selects device [rank % device_count], which is
    a valid device index, and joins the process group before the model is
    built, and wraps the model once it is built; a single-process run
    does none of this; [learner.half()] is called exactly when [--fp16]
    is set. *)
Theorem X10_setup_of_a_run
    {A M : Type} (args : Args) (env : Env A) (n : nat) :
  startup_ok args env ->
  (exists tr,
     main (M := M) args env n = (tr, Ok (tt, (9 + n)%nat)) /\
     setup_steps tr = expected_setup args env) /\
  (0 < device_count env ->
   0 <= rank args mod device_count env < device_count env).
Proof.
  intros Hok. split.
  - destruct (main_views (M := M) args env n Hok) as (tr & Hrun & Hset & _).
    by exists tr.
  - intros Hdc. by apply Z.mod_pos_bound.
Qed.

Lemma X10_setup_witness :
  startup_ok demo_args demo_env /\
  exists tr,
    main (M := unit) demo_args demo_env 0%nat = (tr, Ok (tt, 9%nat)) /\
    setup_steps tr = expected_setup demo_args demo_env.
Proof.
  assert (H : startup_ok demo_args demo_env).
  { split; [intros H; vm_compute in H; discriminate H|intros H; reflexivity]. }
  split; [exact H|].
  exact (proj1 (X10_setup_of_a_run (M := unit) demo_args demo_env 0%nat H)).
Defined.

(** X11. A distributed run on a machine without any CUDA device fails at
    once with [ZeroDivisionError], from [rank % device_count()]: before
    the process group is joined, before the fp16 assertion and before
    anything else is done. *)
Theorem X11_distributed_without_device_raises
    {A M : Type} (args : Args) (env : Env A) (n : nat) :
  1 < world_size args -> device_count env = 0 ->
  main (M := M) args env n = ([], Raise ZeroDivisionError).
Proof. apply main_no_device. Qed.

Lemma X11_distributed_without_device_witness :
  (1 < world_size demo_rank1_args /\ device_count demo_no_device_env = 0) /\
  main (M := unit) demo_rank1_args demo_no_device_env 0%nat
    = ([], Raise ZeroDivisionError).
Proof.
  assert (H1 : 1 < world_size demo_rank1_args) by (vm_compute; reflexivity).
  assert (H2 : device_count demo_no_device_env = 0) by reflexivity.
  split; [by split|].
  exact (X11_distributed_without_device_raises (M := unit) demo_rank1_args
           demo_no_device_env 0%nat H1 H2).
Defined.

(** X12. What [torch_loader] builds once [args.distributed] is assigned:
    three prefetchers on three new streams of their own, none capped,
    none started (building them pulls no batch); the training loader
    shuffles exactly when it has no sampler, and has the distributed
    sampler exactly in a distributed run; the validation loader has twice
    the batch size; validation and augmented-validation loaders neither
    shuffle nor sample; and the augmented-validation set is the
    validation directory under the training transforms. *)
Theorem X12_torch_loader_builds_three_prefetchers
    {A M : Type} (args : Args) (env : Env A) (path : string) (size bs : Z)
    (n : nat) (d : bool) :
  distributed args = Some d ->
  exists data pa,
    torch_loader (M := M) args env path size bs default_min_scale n
      = ([CallTorchLoader path size bs],
         Ok ((data,
              if d
              then Some (DistributedSampler
                           (mkImageFolder (path_join path "train")
                              (train_tfms size default_min_scale)))
              else None), (3 + n)%nat)) /\
    ld_sampler (Prefetch.loader (trn_dl data))
      = (if d
         then Some (DistributedSampler
                      (mkImageFolder (path_join path "train")
                         (train_tfms size default_min_scale)))
         else None) /\
    md_path data = path /\ aug_dl data = Some pa /\
    map Prefetch.stream [trn_dl data; val_dl data; pa] = [n; S n; S (S n)] /\
    Forall (fun p => Prefetch.stop_after p = PyNone /\
                     Prefetch.loaditer p = None /\
                     Prefetch.next_input p = None /\
                     ld_num_workers (Prefetch.loader p) = workers args /\
                     (ld_shuffle (Prefetch.loader p) = true ->
                      ld_sampler (Prefetch.loader p) = None))
      [trn_dl data; val_dl data; pa] /\
    ld_shuffle (Prefetch.loader (trn_dl data)) = negb d /\
    map (fun p => ld_batch_size (Prefetch.loader p)) [trn_dl data; val_dl data; pa]
      = [bs; bs * 2; bs] /\
    map (fun p => ld_shuffle (Prefetch.loader p)) [val_dl data; pa]
      = [false; false] /\
    map (fun p => ld_sampler (Prefetch.loader p)) [val_dl data; pa]
      = [None; None] /\
    map Prefetch.dataset [trn_dl data; val_dl data; pa]
      = [mkImageFolder (path_join path "train") (train_tfms size default_min_scale);
         mkImageFolder (path_join path "val") (val_tfms size);
         mkImageFolder (path_join path "val") (train_tfms size default_min_scale)].
Proof. apply torch_loader_built. Qed.

Lemma X12_torch_loader_witness :
  distributed (set_distributed demo_args false) = Some false /\
  exists data pa,
    torch_loader (M := unit) (set_distributed demo_args false) demo_env
        "/data/imagenet" 128 256 default_min_scale 0%nat
      = ([CallTorchLoader "/data/imagenet" 128 256], Ok ((data, None), 3%nat)) /\
    aug_dl data = Some pa /\
    map Prefetch.stream [trn_dl data; val_dl data; pa] = [0; 1; 2]%nat.
Proof.
  split; [reflexivity|].
  destruct (X12_torch_loader_builds_three_prefetchers (M := unit)
              (set_distributed demo_args false) demo_env "/data/imagenet"
              128 256 0%nat false eq_refl)
    as (data & pa & Hrun & _ & _ & Haug & Hst & _).
  exists data, pa. split; [exact Hrun|]. split; [exact Haug|exact Hst].
Defined.

(** X13. [torch_loader] depends on [main] having run first: on the parsed
    command line, where [args.distributed] is not assigned yet, it raises
    [AttributeError] before any loader is built. *)
Theorem X13_torch_loader_needs_distributed
    {A M : Type} (args : Args) (env : Env A) (path : string) (size bs : Z)
    (ms : Q) (n : nat) :
  distributed args = None ->
  torch_loader (M := M) args env path size bs ms n
    = ([CallTorchLoader path size bs], Raise (AttributeError "distributed")).
Proof. apply torch_loader_unset. Qed.

Lemma X13_torch_loader_needs_distributed_witness :
  distributed demo_args = None /\
  torch_loader (M := unit) demo_args demo_env "/data/imagenet" 128 256
      default_min_scale 0%nat
    = ([CallTorchLoader "/data/imagenet" 128 256],
       Raise (AttributeError "distributed")).
Proof.
  split; [reflexivity|].
  exact (X13_torch_loader_needs_distributed (M := unit) demo_args demo_env
           "/data/imagenet" 128 256 default_min_scale 0%nat eq_refl).
Defined.

(** X14. No two prefetchers of a run share a copy stream: the nine
    prefetchers that [main] hands to the learner over its three stages
    have nine different streams, made one after the other. *)
Theorem X14_prefetchers_have_streams_of_their_own
    {A M : Type} (args : Args) (env : Env A) (n : nat) :
  startup_ok args env ->
  exists tr,
    main (M := M) args env n = (tr, Ok (tt, (9 + n)%nat)) /\
    bound_streams tr = seq n 9 /\
    NoDup (bound_streams tr).
Proof.
  intros Hok.
  destruct (main_views (M := M) args env n Hok) as (tr & Hrun & _ & Hst & _).
  exists tr. split; [exact Hrun|]. split; [exact Hst|].
  rewrite Hst. apply NoDup_seq.
Qed.

Lemma X14_streams_witness :
  startup_ok demo_args demo_env /\
  exists tr,
    main (M := unit) demo_args demo_env 0%nat = (tr, Ok (tt, 9%nat)) /\
    bound_streams tr = seq 0 9 /\
    NoDup (bound_streams tr).
Proof.
  assert (H : startup_ok demo_args demo_env).
  { split; [intros H; vm_compute in H; discriminate H|intros H; reflexivity]. }
  split; [exact H|].
  exact (X14_prefetchers_have_streams_of_their_own (M := unit)
           demo_args demo_env 0%nat H).
Defined.

(** X15. The model directories are made on every process: [main] makes
    [<save_dir>/tmp] and [<save_dir>/models] whatever the rank and even
    with an empty save directory, while [<save_dir>/training_logs] is
    made (once per stage) only where the sink is active. *)
Theorem X15_model_dirs_are_made_on_every_rank
    {A M : Type} (args : Args) (env : Env A) (n : nat) :
  startup_ok args env ->
  exists tr,
    main (M := M) args env n = (tr, Ok (tt, (9 + n)%nat)) /\
    made_dirs tr = expected_dirs args.
Proof.
  intros Hok.
  destruct (main_views (M := M) args env n Hok) as (tr & Hrun & _ & _ & Hdirs).
  by exists tr.
Qed.

Lemma X15_model_dirs_witness :
  startup_ok demo_rank1_args demo_env /\
  exists tr,
    main (M := unit) demo_rank1_args demo_env 0%nat = (tr, Ok (tt, 9%nat)) /\
    made_dirs tr = ["/home/me/imagenet_training/tmp";
                    "/home/me/imagenet_training/models"].
Proof.
  assert (H : startup_ok demo_rank1_args demo_env).
  { split; [intros _ H; discriminate H|intros H; discriminate H]. }
  split; [exact H|].
  exact (X15_model_dirs_are_made_on_every_rank (M := unit)
           demo_rank1_args demo_env 0%nat H).
Defined.

(** X16. The second and the third stage are both named "3": their fits
    get the same keyword arguments, so where the sink is active they
    write to the same log file [<save_dir>/training_logs/3_log.txt] and
    save under the same names, the third stage over the second; the
    first stage has names of its own. *)
Theorem X16_last_two_stages_share_their_names
    {A M : Type} (args : Args) (env : Env A) (n : nat) :
  startup_ok args env ->
  exists tr c1 c2 c3,
    main (M := M) args env n = (tr, Ok (tt, (9 + n)%nat)) /\
    fit_calls tr = [c1; c2; c3] /\
    fc_sargs c2 = fc_sargs c3 /\
    (sink_active args = true ->
     fc_sargs c1 <> fc_sargs c2 /\
     fc_sargs c3 !! "cycle_save_name" = Some (SaStr "3") /\
     fc_sargs c3 !! "best_save_name" = Some (SaStr "3_best_model") /\
     fc_sargs c3 !! "callbacks"
       = Some (SaCallbacks
                 [__init__ ((save_dir args +:+ "/training_logs")
                            +:+ "/" +:+ "3" +:+ "_log.txt") 50])).
Proof.
  intros Hok.
  destruct (main_runs (M := M) args env n Hok) as (tr & Hrun & _ & Hkw).
  destruct (fit_calls tr) as [|c1 [|c2 [|c3 [|c4 rest]]]] eqn:Hfc;
    try discriminate Hkw.
  injection Hkw as H1 H2 H3.
  exists tr, c1, c2, c3. split; [exact Hrun|]. split; [exact Hfc|].
  split; [congruence|]. intros Hact.
  rewrite H1, H2, H3. unfold kwargs_for. rewrite Hact.
  split; [|repeat split; reflexivity].
  intros Heq.
  apply (f_equal (fun m : gmap string (SargVal M) => m !! "cycle_save_name")) in Heq.
  vm_compute in Heq. discriminate Heq.
Qed.

Lemma X16_shared_names_witness :
  startup_ok demo_args demo_env /\
  exists tr c1 c2 c3,
    main (M := unit) demo_args demo_env 0%nat = (tr, Ok (tt, 9%nat)) /\
    fit_calls tr = [c1; c2; c3] /\
    fc_sargs c2 = fc_sargs c3.
Proof.
  assert (H : startup_ok demo_args demo_env).
  { split; [intros H; vm_compute in H; discriminate H|intros H; reflexivity]. }
  split; [exact H|].
  destruct (X16_last_two_stages_share_their_names (M := unit)
              demo_args demo_env 0%nat H)
    as (tr & c1 & c2 & c3 & Hrun & Hfc & Heq & _).
  exists tr, c1, c2, c3. split; [exact Hrun|]. split; [exact Hfc|exact Heq].
Defined.

(** X17. [save_sched] is guarded like [save_args] and aims at the
    directory that [save_args] makes: it sets the scheduler's save path
    and plots exactly when [save_args] makes [<save_dir>/training_logs],
    to that directory, which it does not make itself; where the guard
    stops it, it returns an empty dictionary, otherwise [None]. *)
Theorem X17_save_sched_follows_save_args
    {A M : Type} (args : Args) (name dir : string) (n : nat) :
  sched_dirs (save_sched args dir).1
    = made_dirs (save_args (A := A) (M := M) args name dir n).1 /\
  (save_sched args dir).1
    = (if sink_active args
       then [SetSavePath (dir +:+ "/training_logs"); PlotLoss; PlotLr] else []) /\
  (save_sched args dir).2 = (if sink_active args then RetNone else RetEmptyDict).
Proof.
  unfold save_sched, save_args, sink_active.
  destruct (negb (rank args =? 0) || str_is_empty (save_dir args)); repeat split.
Qed.

(** * Properties of the top5 metric *)

Import Metrics.

Lemma count_true_app l1 l2 : count_true (l1 ++ l2) = count_true l1 + count_true l2.
Proof. induction l1 as [|x l1 IH]; simpl; [reflexivity|]. rewrite IH. lia. Qed.

(** The hits counted along column [k] of the predictions. *)
Lemma column_count_cons k row pred t target :
  count_true (zip_with Z.eqb (map (fun r => nth k r 0) (row :: pred)) (t :: target))
  = (if nth k row 0 =? t then 1 else 0)
    + count_true (zip_with Z.eqb (map (fun r => nth k r 0) pred) target).
Proof. reflexivity. Qed.

Lemma five_distinct_hit (row : list Z) (t : Z) :
  length row = 5%nat -> NoDup row ->
  (if nth 0 row 0 =? t then 1 else 0) + (if nth 1 row 0 =? t then 1 else 0)
  + (if nth 2 row 0 =? t then 1 else 0) + (if nth 3 row 0 =? t then 1 else 0)
  + (if nth 4 row 0 =? t then 1 else 0)
  = if existsb (Z.eqb t) row then 1 else 0.
Proof.
  intros Hlen Hnd.
  destruct row as [|a [|b [|c [|d [|e [|? ?]]]]]]; try discriminate Hlen.
  rewrite !NoDup_cons, !not_elem_of_cons in Hnd.
  destruct Hnd as ((Hab & Hac & Had & Hae & _) & (Hbc & Hbd & Hbe & _)
                   & (Hcd & Hce & _) & (Hde & _) & _).
  cbn [nth existsb]. rewrite !(Z.eqb_sym t).
  destruct (Z.eqb_spec a t), (Z.eqb_spec b t), (Z.eqb_spec c t),
    (Z.eqb_spec d t), (Z.eqb_spec e t); cbn [orb];
    solve [reflexivity | congruence].
Qed.

Lemma transposed_count (pred : list (list Z)) : forall target,
  length target = length pred ->
  Forall (fun row => length row = 5%nat /\ NoDup row) pred ->
  count_true (concat (take 5 (zip_with (zip_with Z.eqb) (transpose5 pred)
                                (replicate 5 target))))
  = hits pred target /\ 0 <= hits pred target <= Z.of_nat (length pred).
Proof.
  assert (Hsum : forall (p : list (list Z)) (t : list Z),
    count_true (concat (take 5 (zip_with (zip_with Z.eqb) (transpose5 p)
                                  (replicate 5 t))))
    = count_true (zip_with Z.eqb (map (fun r => nth 0 r 0) p) t)
      + count_true (zip_with Z.eqb (map (fun r => nth 1 r 0) p) t)
      + count_true (zip_with Z.eqb (map (fun r => nth 2 r 0) p) t)
      + count_true (zip_with Z.eqb (map (fun r => nth 3 r 0) p) t)
      + count_true (zip_with Z.eqb (map (fun r => nth 4 r 0) p) t)).
  { intros p t. unfold transpose5.
    cbn [seq map replicate zip_with take concat].
    rewrite !count_true_app. cbn [count_true]. lia. }
  induction pred as [|row pred IH]; intros target Hlen Hall; rewrite Hsum.
  - destruct target; [|discriminate Hlen]. simpl. lia.
  - destruct target as [|t target]; [discriminate Hlen|].
    apply Forall_cons in Hall as [[Hrow Hnd] Hall].
    injection Hlen as Hlen. specialize (IH target Hlen Hall).
    rewrite Hsum in IH.
    rewrite !column_count_cons. cbn [hits length].
    pose proof (five_distinct_hit row t Hrow Hnd) as Hhit.
    destruct (existsb (Z.eqb t) row); lia.
Qed.

(** X18. [top5] counts every sample at most once. When [topk] gives five
    different class indices per row and there is one target per row,
    the count [correct_k] that [top5] scales by [1.0 / batch_size] is the
    number of samples whose target is among their five predictions, so
    it lies between 0 and the batch size; on an empty batch [top5]
    raises [ZeroDivisionError]; and targets that are neither one per row
    nor a single one do not fit the predictions. *)
Theorem X18_top5_counts_each_sample_once
    {S : Type} (topk : list S -> list Z) (output : list (list S))
    (target : list Z) :
  Metrics.topk_contract topk output ->
  (length target = length output ->
   output <> [] ->
   Metrics.top5 topk output target
     = Metrics.Precision (Metrics.hits (map topk output) target)
         (Z.of_nat (length target)) /\
   0 <= Metrics.hits (map topk output) target <= Z.of_nat (length target)) /\
  (output = [] -> target = [] ->
   Metrics.top5 topk output target = Metrics.DivisionByZero) /\
  (length target <> length output -> length target <> 1%nat ->
   Metrics.top5 topk output target = Metrics.ShapeError).
Proof.
  intros Hc. split; [|split].
  - intros Hlen Hne.
    assert (Hall : Forall (fun row => length row = 5%nat /\ NoDup row)
                     (map topk output)).
    { apply Forall_fmap. exact Hc. }
    assert (Hlen' : length target = length (map topk output))
      by (by rewrite length_map).
    destruct (transposed_count (map topk output) target Hlen' Hall)
      as [Hcount Hrange].
    rewrite <- Hlen' in Hrange.
    unfold Metrics.top5, Metrics.top5_of_pred, Metrics.expand_target.
    rewrite <- Hlen', Nat.eqb_refl, Hcount.
    destruct (Z.eqb_spec (Z.of_nat (length target)) 0) as [H0|_].
    + destruct output; [done|]. destruct target; [discriminate Hlen|discriminate H0].
    + split; [reflexivity|exact Hrange].
  - intros -> ->. reflexivity.
  - intros Hlen H1. unfold Metrics.top5, Metrics.top5_of_pred, Metrics.expand_target.
    rewrite length_map.
    destruct (Nat.eqb_spec (length target) (length output)) as [|_]; [done|].
    destruct target as [|t [|t' target]]; [reflexivity|done|reflexivity].
Qed.

Lemma X18_top5_witness :
  (Metrics.topk_contract (fun _ : list Z => [0; 1; 2; 3; 4]) [[9; 8; 7; 6; 5; 4]; []] /\
   length [3; 7] = length [[9; 8; 7; 6; 5; 4]; ([] : list Z)] /\
   [[9; 8; 7; 6; 5; 4]; ([] : list Z)] <> []) /\
  Metrics.top5 (fun _ : list Z => [0; 1; 2; 3; 4]) [[9; 8; 7; 6; 5; 4]; []] [3; 7]
    = Metrics.Precision 1 2.
Proof.
  assert (Hc : Metrics.topk_contract (fun _ : list Z => [0; 1; 2; 3; 4])
                 [[9; 8; 7; 6; 5; 4]; []]).
  { assert (Hnd : NoDup [0; 1; 2; 3; 4]).
    { rewrite !NoDup_cons, !not_elem_of_cons.
      repeat split; try discriminate; try apply not_elem_of_nil.
      apply NoDup_nil_2. }
    unfold topk_contract.
    constructor; [split; [reflexivity|exact Hnd]|].
    constructor; [split; [reflexivity|exact Hnd]|]. constructor. }
  assert (Hl : length [3; 7] = length [[9; 8; 7; 6; 5; 4]; ([] : list Z)])
    by reflexivity.
  assert (Hn : [[9; 8; 7; 6; 5; 4]; ([] : list Z)] <> []) by discriminate.
  split; [by repeat split|].
  exact (proj1 (proj1 (X18_top5_counts_each_sample_once
                         (fun _ : list Z => [0; 1; 2; 3; 4])
                         [[9; 8; 7; 6; 5; 4]; []] [3; 7] Hc) Hl Hn)).
Defined.

(** ** Two generators on one prefetcher *)

(** X19. Generators made from the same prefetcher are not independent:
    they share [self.loaditer] and the preloaded batch. When a second
    iteration is started while a first one is under way, the second
    restarts the source, and from then on each pull of either generator
    takes the next batch away from the other: with a source b0, b1, b2,
    ... the first generator receives b0, the second b0 again, then the
    first b1, and the second b2, never seeing b1. *)
Theorem X19_interleaved_generators_share_the_source
    {A : Type} (l : DataLoader A) (s : nat)
    (b0 b1 b2 : Batch A) (rest : list (Batch A)) :
  ld_batches l = b0 :: b1 :: b2 :: rest ->
  let first1 := gen_next (Prefetch.__init__ l s PyNone) GNew in
  let second1 := gen_next (step_obj first1) GNew in
  let first2 := gen_next (step_obj second1) (step_gen first1) in
  let second2 := gen_next (step_obj first2) (step_gen second1) in
  step_out first1 = Yielded (to_item b0) /\
  step_out second1 = Yielded (to_item b0) /\
  step_out first2 = Yielded (to_item b1) /\
  step_out second2 = Yielded (to_item b2).
Proof.
  intros Hb first1 second1 first2 second2.
  (* the first generator starts *)
  destruct (gen_next_new_more (Prefetch.__init__ l s PyNone) b0 _ Hb)
    as (p1 & Hs1 & Hpr1 & Hc1).
  destruct (loop_head_more p1 0 _ _ b1 _ Hpr1) as (p1' & Hl1 & Hpr1' & Hc1').
  assert (Hfirst1 : first1
            = (p1', GSuspended (0 + 1), Yielded (to_item b0),
               [CopyIssue s (cuda b0.1) (cuda b0.2)] ++
               [WaitStream (stream p1); CopyIssue (stream p1) (cuda b1.1) (cuda b1.2);
                Yield (cuda b0.1) (Some (cuda b0.2))])).
  { subst first1. rewrite Hs1, loop_head_sofar, Hl1. reflexivity. }
  (* the second generator starts on the same object *)
  assert (Hb1 : ld_batches (loader p1') = b0 :: b1 :: b2 :: rest).
  { destruct Hc1 as (H & _), Hc1' as (H' & _). rewrite H', H. exact Hb. }
  destruct (gen_next_new_more p1' b0 _ Hb1) as (q1 & Hs2 & Hpr2 & Hc2).
  destruct (loop_head_more q1 0 _ _ b1 _ Hpr2) as (q1' & Hl2 & Hpr2' & Hc2').
  assert (Hsecond1 : second1
            = (q1', GSuspended (0 + 1), Yielded (to_item b0),
               [CopyIssue (stream p1') (cuda b0.1) (cuda b0.2)] ++
               [WaitStream (stream q1); CopyIssue (stream q1) (cuda b1.1) (cuda b1.2);
                Yield (cuda b0.1) (Some (cuda b0.2))])).
  { subst second1. rewrite Hfirst1. cbn [step_obj fst snd].
    rewrite Hs2, loop_head_sofar, Hl2. reflexivity. }
  (* no cap on any of these states *)
  assert (Hsa : stop_after q1' = PyNone).
  { destruct Hc1 as (_&_&_&H1), Hc1' as (_&_&_&H2), Hc2 as (_&_&_&H3),
      Hc2' as (_&_&_&H4). rewrite H4, H3, H2, H1. reflexivity. }
  (* the first generator resumes and takes b1 *)
  destruct (loop_head_more q1' (0 + 1) _ _ b2 _ Hpr2') as (r & Hl3 & Hpr3 & Hc3).
  assert (Hfirst2 : first2
            = (r, GSuspended (0 + 1 + 1), Yielded (to_item b1),
               [WaitStream (stream q1'); CopyIssue (stream q1') (cuda b2.1) (cuda b2.2);
                Yield (cuda b1.1) (Some (cuda b1.2))])).
  { subst first2. rewrite Hsecond1, Hfirst1. cbn [step_obj step_gen fst snd].
    rewrite gen_next_resume by (apply cap_check_not_int; by rewrite Hsa).
    exact Hl3. }
  assert (Hsa' : stop_after r = PyNone).
  { destruct Hc3 as (_&_&_&H). by rewrite H. }
  repeat split.
  - by rewrite Hfirst1.
  - by rewrite Hsecond1.
  - by rewrite Hfirst2.
  - subst second2. rewrite Hfirst2, Hsecond1. cbn [step_obj step_gen fst snd].
    rewrite gen_next_resume by (apply cap_check_not_int; by rewrite Hsa').
    destruct rest as [|b3 rest].
    + destruct (loop_head_last r (0 + 1) _ _ Hpr3) as [-> _]. reflexivity.
    + destruct (loop_head_more r (0 + 1) _ _ b3 _ Hpr3) as (r' & -> & _).
      reflexivity.
Qed.

Lemma X19_interleaved_generators_witness :
  ld_batches (demo_loader 4)
    = demo_batch 0 :: demo_batch 1 :: demo_batch 2 :: [demo_batch 3] /\
  step_out
    (gen_next
       (step_obj
          (gen_next
             (step_obj
                (gen_next
                   (step_obj (gen_next (Prefetch.__init__ (demo_loader 4) 0 PyNone) GNew))
                   GNew))
             (step_gen (gen_next (Prefetch.__init__ (demo_loader 4) 0 PyNone) GNew))))
       (step_gen
          (gen_next
             (step_obj (gen_next (Prefetch.__init__ (demo_loader 4) 0 PyNone) GNew))
             GNew)))
    = Yielded (to_item (demo_batch 2)).
Proof.
  split; [reflexivity|].
  exact (proj2 (proj2 (proj2
    (X19_interleaved_generators_share_the_source (demo_loader 4) 0
       (demo_batch 0) (demo_batch 1) (demo_batch 2) [demo_batch 3] eq_refl)))).
Defined.
